(** * OrderMaster: the apartment modal, the employee card and the statistics page

    A shallow embedding of

    - [client/src/components/ui/modals/ApartmentModal.tsx] (module [Full]:
      the modal with employee search and inline employee creation),
    - the second modal variant without those two features (module [Basic]),
    - [client/src/components/ui/data-display/EmployeeCard.tsx],
    - [client/src/pages/statistics.tsx].

    Strings are [string], a text being its UTF-8 bytes, and the engine's
    [toLowerCase] is a parameter; JavaScript numbers that hold identifiers
    and counts are [Z]; [undefined]/[null] is [None].  React state is passed
    explicitly,
    and what a handler does to the outside world (callbacks, toasts, HTTP
    requests) is a list of [Effect]s. *)

From Stdlib Require Import List String Ascii ZArith Bool Arith Lia Permutation.
Import ListNotations.
Open Scope string_scope.

Set Implicit Arguments.

(* ------------------------------------------------------------------ *)
(** * JavaScript operators and built-ins used by the components *)

Module JS.

(** [v || d] where [v] is a string or undefined/null: the empty string,
    [undefined] and [null] are falsy. *)
Definition or (v : option string) (d : string) : string :=
  match v with
  | Some s => if String.eqb s "" then d else s
  | None => d
  end.

(** [v || d] where [v] is an array or undefined: every array is truthy. *)
Definition or_array {A} (v : option (list A)) (d : list A) : list A :=
  match v with
  | Some l => l
  | None => d
  end.

(** [o?.f] for a field that always holds a value. *)
Definition chain {A B} (o : option A) (f : A -> B) : option B :=
  match o with
  | Some a => Some (f a)
  | None => None
  end.

(** [o?.f] for a field that may itself be null. *)
Definition chain_nullable {A B} (o : option A) (f : A -> option B) : option B :=
  match o with
  | Some a => f a
  | None => None
  end.

(** [!s] on a string. *)
Definition not_string (s : string) : bool := String.eqb s "".

(** [Array.prototype.includes] on an array of numbers. *)
Definition array_includes (l : list Z) (x : Z) : bool :=
  existsb (Z.eqb x) l.

(** [String.prototype.includes]: [sub] occurs in [s] at some position. *)
Fixpoint includes (s sub : string) : bool :=
  String.prefix sub s ||
  match s with
  | EmptyString => false
  | String _ s' => includes s' sub
  end.

End JS.

(* ------------------------------------------------------------------ *)
(** * ASCII text

    Texts are held as their UTF-8 bytes, so a text is ASCII when every
    byte is below 128.  On such a text [String.prototype.toLowerCase]
    moves the letters [A]..[Z] to [a]..[z] and keeps every other
    character; on other texts it follows the Unicode tables of the engine
    and is a parameter of the model. *)

Module AsciiText.

Definition lower (c : ascii) : ascii :=
  let n := nat_of_ascii c in
  if (65 <=? n)%nat && (n <=? 90)%nat then ascii_of_nat (n + 32) else c.

Fixpoint lower_text (s : string) : string :=
  match s with
  | EmptyString => EmptyString
  | String c s' => String (lower c) (lower_text s')
  end.

Definition is_ascii_char (c : ascii) : bool := (nat_of_ascii c <? 128)%nat.

Fixpoint is_ascii (s : string) : bool :=
  match s with
  | EmptyString => true
  | String c s' => is_ascii_char c && is_ascii s'
  end.

End AsciiText.

(* ------------------------------------------------------------------ *)
(** * Data model *)

(** The two closed enumerations of the shared schema. *)
Inductive Status := DaFare | InCorso | Fatto.
Inductive PaymentStatus := DaPagare | Pagato.

Definition status_str (s : Status) : string :=
  match s with
  | DaFare => "Da Fare"
  | InCorso => "In Corso"
  | Fatto => "Fatto"
  end.

Definition payment_str (p : PaymentStatus) : string :=
  match p with
  | DaPagare => "Da Pagare"
  | Pagato => "Pagato"
  end.

Module Employee.
Record t := mk { id : Z; first_name : string; last_name : string }.
End Employee.

(** Modelled from the spec: the [Apartment] type of [@shared/schema] is not
    among the sources; section 3 of the specification gives its fields:
    name and cleaning date, optional start and end time, the two enumerated statuses, free-text
    notes that may be missing, and the assigned employees. *)
Module Apartment.
Record t := mk {
  id : Z;
  name : string;
  cleaning_date : string;
  start_time : option string;
  end_time : option string;
  status : Status;
  payment_status : PaymentStatus;
  notes : option string;
  employees : list Employee.t
}.
End Apartment.

(** The values held by the form.  At run time the two statuses are plain
    strings (the schema is what restricts them), and the three optional
    fields may be undefined. *)
Module ApartmentFormData.
Record t := mk {
  name : string;
  cleaning_date : string;
  start_time : option string;
  end_time : option string;
  status : string;
  payment_status : string;
  notes : option string;
  employee_ids : list Z
}.

Definition set_name (v : string) (f : t) : t :=
  mk v (cleaning_date f) (start_time f) (end_time f) (status f)
     (payment_status f) (notes f) (employee_ids f).
Definition set_cleaning_date (v : string) (f : t) : t :=
  mk (name f) v (start_time f) (end_time f) (status f)
     (payment_status f) (notes f) (employee_ids f).
Definition set_start_time (v : option string) (f : t) : t :=
  mk (name f) (cleaning_date f) v (end_time f) (status f)
     (payment_status f) (notes f) (employee_ids f).
Definition set_end_time (v : option string) (f : t) : t :=
  mk (name f) (cleaning_date f) (start_time f) v (status f)
     (payment_status f) (notes f) (employee_ids f).
Definition set_status (v : string) (f : t) : t :=
  mk (name f) (cleaning_date f) (start_time f) (end_time f) v
     (payment_status f) (notes f) (employee_ids f).
Definition set_payment_status (v : string) (f : t) : t :=
  mk (name f) (cleaning_date f) (start_time f) (end_time f) (status f)
     v (notes f) (employee_ids f).
Definition set_notes (v : option string) (f : t) : t :=
  mk (name f) (cleaning_date f) (start_time f) (end_time f) (status f)
     (payment_status f) v (employee_ids f).
Definition set_employee_ids (v : list Z) (f : t) : t :=
  mk (name f) (cleaning_date f) (start_time f) (end_time f) (status f)
     (payment_status f) (notes f) v.
End ApartmentFormData.

Module NewEmployee.
Record t := mk { first_name : string; last_name : string }.
End NewEmployee.

(** A JavaScript object as React sees it: a value at an address.  The
    dependency array of an effect compares objects by address. *)
Record Obj (A : Type) := { addr : nat; val : A }.

(** The props of [ApartmentModal] that carry data ([onClose] and [onSubmit]
    are callbacks and appear as effects). *)
Record Props := {
  isOpen : bool;
  apartment : option (Obj Apartment.t);
  employees : list Employee.t
}.

(** [Object.is] on the [apartment] prop of two renders. *)
Definition same_object (a b : option (Obj Apartment.t)) : bool :=
  match a, b with
  | None, None => true
  | Some x, Some y => Nat.eqb (addr x) (addr y)
  | _, _ => false
  end.

(** Whether the dependencies [[isOpen, apartment, form.reset]] of the reset
    effect differ between two renders ([form.reset] is stable). *)
Definition deps_changed (old new : Props) : bool :=
  negb (Bool.eqb (isOpen old) (isOpen new))
  || negb (same_object (apartment old) (apartment new)).

(** What a handler does outside the component. *)
Inductive Effect :=
| onSubmit (data : ApartmentFormData.t)
| onClose
| toast (title description : string) (destructive : bool)
| apiRequest (method url : string) (body : NewEmployee.t)
| invalidateQueries (queryKey : string).

(* ------------------------------------------------------------------ *)
(** * zod schemas and react-hook-form's submit handler *)

Module Zod.

Inductive IssueCode := too_small | invalid_enum_value.

(** One validation issue: the field, the kind, and the custom message
    when the schema gives one. *)
Record Issue := { path : string; code : IssueCode; message : option string }.

Inductive SafeParse (A : Type) :=
| Success (data : A)
| Failure (issues : list Issue).
Arguments Failure {A} issues.

(** [z.string().min(1, msg)] at field [p]. *)
Definition string_min1 (p msg : string) (v : string) : list Issue :=
  if (String.length v <? 1)%nat
  then [{| path := p; code := too_small; message := Some msg |}]
  else [].

(** [z.string().optional()]: undefined and every string pass. *)
Definition string_optional (p : string) (v : option string) : list Issue := [].

(** [z.enum(options)] at field [p]. *)
Definition enum (options : list string) (p : string) (v : string) : list Issue :=
  if existsb (String.eqb v) options
  then []
  else [{| path := p; code := invalid_enum_value; message := None |}].

(** [z.array(z.number())] on a value that is an array of numbers. *)
Definition array_number (p : string) (v : list Z) : list Issue := [].

Definition result {A} (data : A) (issues : list Issue) : SafeParse A :=
  match issues with
  | [] => Success data
  | _ => Failure issues
  end.

Definition success {A} (r : SafeParse A) : bool :=
  match r with
  | Success _ => true
  | Failure _ => false
  end.

End Zod.

(** [form.handleSubmit(onSubmit)] with a resolver: the callback receives the
    parsed data when the resolver reports no issue, and is not called
    otherwise. *)
Definition handleSubmit
    (resolver : ApartmentFormData.t -> Zod.SafeParse ApartmentFormData.t)
    (values : ApartmentFormData.t) : list Effect :=
  match resolver values with
  | Zod.Success data => [onSubmit data]
  | Zod.Failure _ => []
  end.

(** Modelled from the spec: the checkbox of [@/components/ui/checkbox] is
    not among the sources.  It is a controlled toggle: a click on a checked
    box unchecks it and a click on an unchecked box checks it, that is, it
    calls [onCheckedChange] with the negation of the [checked] prop. *)
Definition click_checkbox (checked : bool) (onCheckedChange : bool -> list Z) : list Z :=
  onCheckedChange (negb checked).

(* ------------------------------------------------------------------ *)
(** * Handler bodies

    A handler reads and writes the component state, performs effects, and
    may throw.  State written and effects performed before a throw stay. *)

(** How an awaited promise settles. *)
Inductive Outcome := Resolved | Rejected (message : string).

Inductive Completion (A : Type) :=
| Normal (a : A)
| Throw (message : string).
Arguments Throw {A} message.

Section Handler.
Variable S : Type.

Definition M (A : Type) : Type := S -> S * list Effect * Completion A.

Definition ret {A} (a : A) : M A := fun s => (s, [], Normal a).

Definition bind {A B} (c : M A) (k : A -> M B) : M B :=
  fun s =>
    match c s with
    | (s1, out1, Normal a) =>
        match k a s1 with
        | (s2, out2, r) => (s2, (out1 ++ out2)%list, r)
        end
    | (s1, out1, Throw m) => (s1, out1, Throw m)
    end.

Definition gets {A} (f : S -> A) : M A := fun s => (s, [], Normal (f s)).

Definition modify (f : S -> S) : M unit := fun s => (f s, [], Normal tt).

Definition emit (e : Effect) : M unit := fun s => (s, [e], Normal tt).

(** [await p] for a promise that settles as [o]. *)
Definition await (o : Outcome) : M unit :=
  fun s =>
    match o with
    | Resolved => (s, [], Normal tt)
    | Rejected m => (s, [], Throw m)
    end.

(** [try { body } catch (error) { handler(error.message) }]. *)
Definition try_catch (body : M unit) (handler : string -> M unit) : M unit :=
  fun s =>
    match body s with
    | (s1, out1, Normal a) => (s1, out1, Normal a)
    | (s1, out1, Throw m) =>
        match handler m s1 with
        | (s2, out2, r) => (s2, (out1 ++ out2)%list, r)
        end
    end.

(** Running a handler to its end: the new state and the effects. *)
Definition exec {A} (c : M A) (s : S) : S * list Effect :=
  match c s with
  | (s', out, _) => (s', out)
  end.
End Handler.

Arguments ret {S A} a.
Arguments gets {S A} f.
Arguments emit {S} e.
Arguments await {S} o.

Notation "x <- c ;; k" := (bind c (fun x => k))
  (at level 61, c at next level, right associativity).
Notation "c ;; k" := (bind c (fun _ => k))
  (at level 61, right associativity).

(* ------------------------------------------------------------------ *)
(** * What the user and the parent component can do to a mounted modal *)

(** Events that both variants of the modal offer. *)
Inductive Event :=
| Render (p : Props)                (* the parent renders the modal again *)
| ChangeName (v : string)
| ChangeCleaningDate (v : string)
| ChangeStartTime (v : string)
| ChangeEndTime (v : string)
| SelectStatus (v : Status)
| SelectPaymentStatus (v : PaymentStatus)
| ChangeNotes (v : string)
| ClickCheckbox (i : nat)           (* the i-th checkbox of the checklist *)
| Submit
| ClickClose.

(* ------------------------------------------------------------------ *)
(** * The modal with employee search and inline employee creation *)

Module Full.
Import ApartmentFormData.

Definition formSchema (v : ApartmentFormData.t) : Zod.SafeParse ApartmentFormData.t :=
  Zod.result v
    (Zod.string_min1 "name" "Il nome è obbligatorio" (name v)
     ++ Zod.string_min1 "cleaning_date" "La data è obbligatoria" (cleaning_date v)
     ++ Zod.string_optional "start_time" (start_time v)
     ++ Zod.string_optional "end_time" (end_time v)
     ++ Zod.enum ["Da Fare"; "In Corso"; "Fatto"] "status" (status v)
     ++ Zod.enum ["Da Pagare"; "Pagato"] "payment_status" (payment_status v)
     ++ Zod.string_optional "notes" (notes v)
     ++ Zod.array_number "employee_ids" (employee_ids v))%list.

Definition newEmployeeSchema (v : NewEmployee.t) : Zod.SafeParse NewEmployee.t :=
  Zod.result v
    (Zod.string_min1 "first_name" "Il nome è obbligatorio" (NewEmployee.first_name v)
     ++ Zod.string_min1 "last_name" "Il cognome è obbligatorio" (NewEmployee.last_name v))%list.

Record State := mkState {
  form : ApartmentFormData.t;
  showAddEmployee : bool;
  newEmployee : NewEmployee.t;
  employeeSearch : string;
  props : Props                     (* the props of the latest render *)
}.

Definition set_form (v : ApartmentFormData.t) (s : State) : State :=
  mkState v (showAddEmployee s) (newEmployee s) (employeeSearch s) (props s).
Definition setShowAddEmployee (v : bool) (s : State) : State :=
  mkState (form s) v (newEmployee s) (employeeSearch s) (props s).
Definition setNewEmployee (v : NewEmployee.t) (s : State) : State :=
  mkState (form s) (showAddEmployee s) v (employeeSearch s) (props s).
Definition setEmployeeSearch (v : string) (s : State) : State :=
  mkState (form s) (showAddEmployee s) (newEmployee s) v (props s).
Definition set_props (v : Props) (s : State) : State :=
  mkState (form s) (showAddEmployee s) (newEmployee s) (employeeSearch s) v.

(** [defaultValues] of [useForm]. *)
Definition defaultValues (apartment : option (Obj Apartment.t)) : ApartmentFormData.t :=
  {| name := JS.or (JS.chain apartment (fun a => Apartment.name (val a))) "";
     cleaning_date := JS.or (JS.chain apartment (fun a => Apartment.cleaning_date (val a))) "";
     start_time := Some (JS.or (JS.chain_nullable apartment (fun a => Apartment.start_time (val a))) "");
     end_time := Some (JS.or (JS.chain_nullable apartment (fun a => Apartment.end_time (val a))) "");
     status := JS.or (JS.chain apartment (fun a => status_str (Apartment.status (val a)))) "Da Fare";
     payment_status :=
       JS.or (JS.chain apartment (fun a => payment_str (Apartment.payment_status (val a)))) "Da Pagare";
     notes := Some (JS.or (JS.chain_nullable apartment (fun a => Apartment.notes (val a))) "");
     employee_ids :=
       JS.or_array (JS.chain apartment (fun a => map (fun e => Employee.id e) (Apartment.employees (val a)))) []
  |}.

(** The body of the reset effect. *)
Definition resetEffect (isOpen : bool) (apartment : option (Obj Apartment.t))
    (s : State) : State :=
  if isOpen then
    let s1 :=
      set_form
        {| name := JS.or (JS.chain apartment (fun a => Apartment.name (val a))) "";
           cleaning_date := JS.or (JS.chain apartment (fun a => Apartment.cleaning_date (val a))) "";
           start_time := Some (JS.or (JS.chain_nullable apartment (fun a => Apartment.start_time (val a))) "");
           end_time := Some (JS.or (JS.chain_nullable apartment (fun a => Apartment.end_time (val a))) "");
           status := JS.or (JS.chain apartment (fun a => status_str (Apartment.status (val a)))) "Da Fare";
           payment_status :=
             JS.or (JS.chain apartment (fun a => payment_str (Apartment.payment_status (val a)))) "Da Pagare";
           notes := Some (JS.or (JS.chain_nullable apartment (fun a => Apartment.notes (val a))) "");
           employee_ids :=
             JS.or_array
               (JS.chain apartment (fun a => map (fun e => Employee.id e) (Apartment.employees (val a)))) []
        |} s in
    let s2 := setEmployeeSearch "" s1 in
    setShowAddEmployee false s2
  else s.

Definition handleAddNewEmployee (post invalidate : Outcome) : M State unit :=
  newEmployee <- gets newEmployee ;;
  let result := newEmployeeSchema newEmployee in
  if negb (Zod.success result) then
    emit (toast "Errore" "Nome e cognome sono obbligatori." true)
  else
    try_catch
      (emit (apiRequest "POST" "/api/employees" newEmployee) ;;
       await post ;;
       emit (invalidateQueries "/api/employees") ;;
       await invalidate ;;
       emit (toast "Successo" "Dipendente aggiunto con successo." false) ;;
       modify (setNewEmployee {| NewEmployee.first_name := ""; NewEmployee.last_name := "" |}) ;;
       modify (setShowAddEmployee false))
      (fun message =>
         emit (toast "Errore" ("Errore durante l'aggiunta: " ++ message) true)).

Section WithEngine.
(** [String.prototype.toLowerCase] of the JavaScript engine. *)
Variable toLowerCase : string -> string.

Definition filteredEmployees (employees : list Employee.t) (employeeSearch : string)
    : list Employee.t :=
  if JS.not_string employeeSearch then employees
  else
    filter
      (fun employee =>
         JS.includes
           (toLowerCase (Employee.first_name employee ++ " " ++ Employee.last_name employee))
           (toLowerCase employeeSearch))
      employees.

(** The [checked] prop and the [onCheckedChange] handler of one checkbox. *)
Definition checked (field_value : list Z) (employee : Employee.t) : bool :=
  JS.array_includes field_value (Employee.id employee).

Definition onCheckedChange (field_value : list Z) (employee : Employee.t)
    (checked : bool) : list Z :=
  let newValue :=
    if checked
    then (field_value ++ [Employee.id employee])%list
    else filter (fun value => negb (Z.eqb value (Employee.id employee))) field_value in
  newValue.

(** First render: [useState] and [useForm] initialise, then the effect runs. *)
Definition mount (p : Props) : State :=
  resetEffect (isOpen p) (apartment p)
    {| form := defaultValues (apartment p);
       showAddEmployee := false;
       newEmployee := {| NewEmployee.first_name := ""; NewEmployee.last_name := "" |};
       employeeSearch := "";
       props := p |}.

(** A later render: the effect runs when one of its dependencies changed. *)
Definition render (p : Props) (s : State) : State :=
  let s' := set_props p s in
  if deps_changed (props s) p then resetEffect (isOpen p) (apartment p) s' else s'.

Definition on_form (f : ApartmentFormData.t -> ApartmentFormData.t) (s : State) : State :=
  set_form (f (form s)) s.

(** Events of this variant: the common ones and those of the search box
    and of the new-employee sub-form. *)
Inductive FullEvent :=
| Common (e : Event)
| ChangeEmployeeSearch (v : string)
| ClickAddToggle
| ChangeNewFirstName (v : string)
| ChangeNewLastName (v : string)
| ClickAddEmployee (post invalidate : Outcome).

Definition step_common (e : Event) (s : State) : State * list Effect :=
  match e with
  | Render p => (render p s, [])
  | _ =>
    if negb (isOpen (props s)) then (s, [])      (* [return null]: nothing to act on *)
    else
      match e with
      | Render p => (s, [])
      | ChangeName v => (on_form (set_name v) s, [])
      | ChangeCleaningDate v => (on_form (set_cleaning_date v) s, [])
      | ChangeStartTime v => (on_form (set_start_time (Some v)) s, [])
      | ChangeEndTime v => (on_form (set_end_time (Some v)) s, [])
      | SelectStatus v => (on_form (set_status (status_str v)) s, [])
      | SelectPaymentStatus v => (on_form (set_payment_status (payment_str v)) s, [])
      | ChangeNotes v => (on_form (set_notes (Some v)) s, [])
      | ClickCheckbox i =>
          match nth_error (filteredEmployees (employees (props s)) (employeeSearch s)) i with
          | Some employee =>
              let field_value := employee_ids (form s) in
              (on_form
                 (set_employee_ids
                    (click_checkbox (checked field_value employee)
                       (onCheckedChange field_value employee))) s, [])
          | None => (s, [])
          end
      | Submit => (s, handleSubmit formSchema (form s))
      | ClickClose => (s, [onClose])
      end
  end.

Definition step (e : FullEvent) (s : State) : State * list Effect :=
  match e with
  | Common e => step_common e s
  | _ =>
    if negb (isOpen (props s)) then (s, [])
    else
      match e with
      | Common _ => (s, [])
      | ChangeEmployeeSearch v => (setEmployeeSearch v s, [])
      | ClickAddToggle => (setShowAddEmployee (negb (showAddEmployee s)) s, [])
      | ChangeNewFirstName v =>
          if showAddEmployee s
          then (setNewEmployee
                  {| NewEmployee.first_name := v;
                     NewEmployee.last_name := NewEmployee.last_name (newEmployee s) |} s, [])
          else (s, [])
      | ChangeNewLastName v =>
          if showAddEmployee s
          then (setNewEmployee
                  {| NewEmployee.first_name := NewEmployee.first_name (newEmployee s);
                     NewEmployee.last_name := v |} s, [])
          else (s, [])
      | ClickAddEmployee post invalidate =>
          if showAddEmployee s
          then exec (handleAddNewEmployee post invalidate) s
          else (s, [])
      end
  end.

Fixpoint run (es : list FullEvent) (s : State) : State * list Effect :=
  match es with
  | [] => (s, [])
  | e :: es' =>
      let (s1, out1) := step e s in
      let (s2, out2) := run es' s1 in
      (s2, (out1 ++ out2)%list)
  end.

End WithEngine.

End Full.

(* ------------------------------------------------------------------ *)
(** * The modal without employee search and inline employee creation *)

Module Basic.
Import ApartmentFormData.

Definition formSchema (v : ApartmentFormData.t) : Zod.SafeParse ApartmentFormData.t :=
  Zod.result v
    (Zod.string_min1 "name" "Il nome è obbligatorio" (name v)
     ++ Zod.string_min1 "cleaning_date" "La data è obbligatoria" (cleaning_date v)
     ++ Zod.string_optional "start_time" (start_time v)
     ++ Zod.string_optional "end_time" (end_time v)
     ++ Zod.enum ["Da Fare"; "In Corso"; "Fatto"] "status" (status v)
     ++ Zod.enum ["Da Pagare"; "Pagato"] "payment_status" (payment_status v)
     ++ Zod.string_optional "notes" (notes v)
     ++ Zod.array_number "employee_ids" (employee_ids v))%list.

Record State := mkState {
  form : ApartmentFormData.t;
  props : Props                     (* the props of the latest render *)
}.

Definition set_form (v : ApartmentFormData.t) (s : State) : State :=
  mkState v (props s).
Definition set_props (v : Props) (s : State) : State :=
  mkState (form s) v.

(** [defaultValues] of [useForm]. *)
Definition defaultValues (apartment : option (Obj Apartment.t)) : ApartmentFormData.t :=
  {| name := JS.or (JS.chain apartment (fun a => Apartment.name (val a))) "";
     cleaning_date := JS.or (JS.chain apartment (fun a => Apartment.cleaning_date (val a))) "";
     start_time := Some (JS.or (JS.chain_nullable apartment (fun a => Apartment.start_time (val a))) "");
     end_time := Some (JS.or (JS.chain_nullable apartment (fun a => Apartment.end_time (val a))) "");
     status := JS.or (JS.chain apartment (fun a => status_str (Apartment.status (val a)))) "Da Fare";
     payment_status :=
       JS.or (JS.chain apartment (fun a => payment_str (Apartment.payment_status (val a)))) "Da Pagare";
     notes := Some (JS.or (JS.chain_nullable apartment (fun a => Apartment.notes (val a))) "");
     employee_ids :=
       JS.or_array (JS.chain apartment (fun a => map (fun e => Employee.id e) (Apartment.employees (val a)))) []
  |}.

(** The body of the reset effect. *)
Definition resetEffect (isOpen : bool) (apartment : option (Obj Apartment.t))
    (s : State) : State :=
  if isOpen then
    set_form
      {| name := JS.or (JS.chain apartment (fun a => Apartment.name (val a))) "";
         cleaning_date := JS.or (JS.chain apartment (fun a => Apartment.cleaning_date (val a))) "";
         start_time := Some (JS.or (JS.chain_nullable apartment (fun a => Apartment.start_time (val a))) "");
         end_time := Some (JS.or (JS.chain_nullable apartment (fun a => Apartment.end_time (val a))) "");
         status := JS.or (JS.chain apartment (fun a => status_str (Apartment.status (val a)))) "Da Fare";
         payment_status :=
           JS.or (JS.chain apartment (fun a => payment_str (Apartment.payment_status (val a)))) "Da Pagare";
         notes := Some (JS.or (JS.chain_nullable apartment (fun a => Apartment.notes (val a))) "");
         employee_ids :=
           JS.or_array
             (JS.chain apartment (fun a => map (fun e => Employee.id e) (Apartment.employees (val a)))) []
      |} s
  else s.

(** The [checked] prop and the [onCheckedChange] handler of one checkbox;
    the handler returns the value it passes to [field.onChange]. *)
Definition checked (field_value : list Z) (employee : Employee.t) : bool :=
  JS.array_includes field_value (Employee.id employee).

Definition onCheckedChange (field_value : list Z) (employee : Employee.t)
    (checked : bool) : list Z :=
  if checked
  then (field_value ++ [Employee.id employee])%list
  else filter (fun value => negb (Z.eqb value (Employee.id employee))) field_value.

Definition mount (p : Props) : State :=
  resetEffect (isOpen p) (apartment p)
    {| form := defaultValues (apartment p); props := p |}.

Definition render (p : Props) (s : State) : State :=
  let s' := set_props p s in
  if deps_changed (props s) p then resetEffect (isOpen p) (apartment p) s' else s'.

Definition on_form (f : ApartmentFormData.t -> ApartmentFormData.t) (s : State) : State :=
  set_form (f (form s)) s.

Definition step (e : Event) (s : State) : State * list Effect :=
  match e with
  | Render p => (render p s, [])
  | _ =>
    if negb (isOpen (props s)) then (s, [])      (* [return null]: nothing to act on *)
    else
      match e with
      | Render p => (s, [])
      | ChangeName v => (on_form (set_name v) s, [])
      | ChangeCleaningDate v => (on_form (set_cleaning_date v) s, [])
      | ChangeStartTime v => (on_form (set_start_time (Some v)) s, [])
      | ChangeEndTime v => (on_form (set_end_time (Some v)) s, [])
      | SelectStatus v => (on_form (set_status (status_str v)) s, [])
      | SelectPaymentStatus v => (on_form (set_payment_status (payment_str v)) s, [])
      | ChangeNotes v => (on_form (set_notes (Some v)) s, [])
      | ClickCheckbox i =>
          match nth_error (employees (props s)) i with
          | Some employee =>
              let field_value := employee_ids (form s) in
              (on_form
                 (set_employee_ids
                    (click_checkbox (checked field_value employee)
                       (onCheckedChange field_value employee))) s, [])
          | None => (s, [])
          end
      | Submit => (s, handleSubmit formSchema (form s))
      | ClickClose => (s, [onClose])
      end
  end.

Fixpoint run (es : list Event) (s : State) : State * list Effect :=
  match es with
  | [] => (s, [])
  | e :: es' =>
      let (s1, out1) := step e s in
      let (s2, out2) := run es' s1 in
      (s2, (out1 ++ out2)%list)
  end.

End Basic.

(* ------------------------------------------------------------------ *)
(** * The employee card *)

Module EmployeeCard.

(** [EmployeeWithAssignedApartments]: an employee with the apartments
    assigned to them. *)
Record EmployeeWithAssignedApartments := {
  id : Z;
  first_name : string;
  last_name : string;
  apartments : list Apartment.t
}.

(** What the card shows: the heading, the count and the noun after it. *)
Record Card := { heading : string; count : Z; noun : string }.

Definition EmployeeCard (employee : EmployeeWithAssignedApartments) : Card :=
  let fullName := first_name employee ++ " " ++ last_name employee in
  let assignmentCount := Z.of_nat (List.length (apartments employee)) in
  {| heading := fullName;
     count := assignmentCount;
     noun := if Z.eqb assignmentCount 1 then "ordine assegnato" else "ordini assegnati" |}.

End EmployeeCard.

(* ------------------------------------------------------------------ *)
(** * The statistics page *)

Module Statistics.

Record Counted := { name : string; count : Z }.
Record Slice := { slice_name : string; value : Z }.
Record Month := { month_name : string; total : Z }.
Record Day := { date : string; day_count : Z }.

Record StatisticsData := {
  totalOrders : Z;
  topEmployee : Counted;
  orderStatusCounts : list Slice;
  paymentStatusCounts : list Slice;
  ordersByMonth : list Month;
  busiestDay : Day
}.

(** What the three metric cards show, and the bars handed to the monthly
    chart (the charts are drawn by the charting library). *)
Record Cards := {
  totalOrdersCard : Z;
  topEmployeeName : string;
  topEmployeeCount : Z;
  topEmployeeNoun : string;
  busiestDayValue : string;
  busiestDayCount : Z;
  busiestDayNoun : string;
  monthlyBars : list Month
}.

(** What the component does for one state of the query: one of the three
    screens, or an exception thrown while rendering. *)
Inductive View :=
| Loading
| Failed
| Thrown
| Loaded (cards : Cards).

Section Page.
(** [formatDateForDisplay] of [@/lib/date-utils]; its source is not
    part of the page. *)
Variable formatDateForDisplay : string -> string.

(** [format(parse(name, 'yyyy-MM', new Date()), 'LLL yyyy', { locale: it })]
    of date-fns: the label of a month key, or [None] when [format] throws a
    RangeError on the invalid date that [parse] returns for a key it cannot
    read. *)
Variable formatMonth : string -> option string.

(** [stats.ordersByMonth.map(...)]: the first key that cannot be formatted
    throws. *)
Fixpoint monthlyData (items : list Month) : option (list Month) :=
  match items with
  | [] => Some []
  | item :: rest =>
      match formatMonth (month_name item) with
      | None => None
      | Some label =>
          match monthlyData rest with
          | None => None
          | Some bars => Some ({| month_name := label; total := total item |} :: bars)
          end
      end
  end.

Definition formattedBusiestDay (stats : StatisticsData) : string :=
  if negb (String.eqb (date (busiestDay stats)) "N/A")
  then formatDateForDisplay (date (busiestDay stats))
  else "N/A".

(** The page for one state of the query. *)
Definition Statistics (stats : option StatisticsData) (isLoading isError : bool) : View :=
  if isLoading then Loading
  else
    match stats with
    | None => Failed
    | Some stats =>
        if isError then Failed
        else
          match monthlyData (ordersByMonth stats) with
          | None => Thrown
          | Some monthlyData =>
              Loaded
                {| totalOrdersCard := totalOrders stats;
                   topEmployeeName := name (topEmployee stats);
                   topEmployeeCount := count (topEmployee stats);
                   topEmployeeNoun :=
                     if Z.eqb (count (topEmployee stats)) 1 then "ordine" else "ordini";
                   busiestDayValue := formattedBusiestDay stats;
                   busiestDayCount := day_count (busiestDay stats);
                   busiestDayNoun :=
                     if Z.eqb (day_count (busiestDay stats)) 1 then "ordine" else "ordini";
                   monthlyBars := monthlyData |}
          end
    end.
End Page.

End Statistics.

(* ------------------------------------------------------------------ *)
(** * Reference notions the properties are stated against *)

(** A sequence of clicks on employee checkboxes, applied to the value of
    the [employee_ids] field. *)
Definition full_click (field_value : list Z) (employee : Employee.t) : list Z :=
  click_checkbox (Full.checked field_value employee)
    (Full.onCheckedChange field_value employee).

Definition basic_click (field_value : list Z) (employee : Employee.t) : list Z :=
  click_checkbox (Basic.checked field_value employee)
    (Basic.onCheckedChange field_value employee).

(** The checkboxes kept on their own, one per employee id: a click flips
    the box of that id and leaves the others. *)
Definition flip_box (id : Z) (boxes : Z -> bool) : Z -> bool :=
  fun x => if Z.eqb x id then negb (boxes x) else boxes x.

Definition boxes_after (boxes : Z -> bool) (clicks : list Employee.t) : Z -> bool :=
  fold_left (fun b e => flip_box (Employee.id e) b) clicks boxes.

(** The employees behind a sequence of clicked positions of a checklist. *)
Definition clicked (shown : list Employee.t) (positions : list nat) : list Employee.t :=
  flat_map (fun i => match nth_error shown i with Some e => [e] | None => [] end) positions.

(** The validation rules in the words of the specification. *)
Definition valid_apartment_form (v : ApartmentFormData.t) : Prop :=
  ApartmentFormData.name v <> ""
  /\ ApartmentFormData.cleaning_date v <> ""
  /\ (ApartmentFormData.status v = "Da Fare"
      \/ ApartmentFormData.status v = "In Corso"
      \/ ApartmentFormData.status v = "Fatto")
  /\ (ApartmentFormData.payment_status v = "Da Pagare"
      \/ ApartmentFormData.payment_status v = "Pagato").

(** Containment ignoring the case of ASCII letters, for ASCII texts. *)
Definition is_upper (c : ascii) : Prop :=
  (65 <= nat_of_ascii c <= 90)%nat.

(** [a] is an upper-case letter and [b] the same letter in lower case. *)
Definition upper_lower (a b : ascii) : Prop :=
  is_upper a /\ nat_of_ascii b = (nat_of_ascii a + 32)%nat.

Definition same_char_ci (a b : ascii) : Prop :=
  a = b \/ upper_lower a b \/ upper_lower b a.

Fixpoint same_text_ci (s t : string) : Prop :=
  match s, t with
  | EmptyString, EmptyString => True
  | String a s', String b t' => same_char_ci a b /\ same_text_ci s' t'
  | _, _ => False
  end.

Definition contains_ci_ascii (text search : string) : Prop :=
  exists before found after,
    text = before ++ found ++ after /\ same_text_ci found search.

(** What the engine's [toLowerCase] does on ASCII text. *)
Definition lowers_ascii (toLowerCase : string -> string) : Prop :=
  forall s, AsciiText.is_ascii s = true -> toLowerCase s = AsciiText.lower_text s.

(** Case-insensitive containment in the words of the specification, for
    every text: some part of the text equals the search text when case is
    ignored, two texts being equal ignoring case when they have the same
    lower-case form. *)
Definition contains_ignoring_case (toLowerCase : string -> string)
    (text search : string) : Prop :=
  exists before found after,
    text = before ++ found ++ after /\ toLowerCase found = toLowerCase search.

Definition display_name (e : Employee.t) : string :=
  Employee.first_name e ++ " " ++ Employee.last_name e.

(** The text an optional field of an apartment shows in the form. *)
Definition shown_text (v : option string) : string :=
  match v with
  | Some s => s
  | None => ""
  end.

(** The values of the form in create mode. *)
Definition create_defaults : ApartmentFormData.t :=
  {| ApartmentFormData.name := "";
     ApartmentFormData.cleaning_date := "";
     ApartmentFormData.start_time := Some "";
     ApartmentFormData.end_time := Some "";
     ApartmentFormData.status := "Da Fare";
     ApartmentFormData.payment_status := "Da Pagare";
     ApartmentFormData.notes := Some "";
     ApartmentFormData.employee_ids := [] |}.

(** The values of an apartment as a form holds them: every field is the
    apartment's own, a missing optional text being the empty text. *)
Definition values_of (b : Apartment.t) : ApartmentFormData.t :=
  {| ApartmentFormData.name := Apartment.name b;
     ApartmentFormData.cleaning_date := Apartment.cleaning_date b;
     ApartmentFormData.start_time := Some (shown_text (Apartment.start_time b));
     ApartmentFormData.end_time := Some (shown_text (Apartment.end_time b));
     ApartmentFormData.status := status_str (Apartment.status b);
     ApartmentFormData.payment_status := payment_str (Apartment.payment_status b);
     ApartmentFormData.notes := Some (shown_text (Apartment.notes b));
     ApartmentFormData.employee_ids := map Employee.id (Apartment.employees b) |}.

Definition target_values (target : option (Obj Apartment.t)) : ApartmentFormData.t :=
  match target with
  | Some b => values_of (val b)
  | None => create_defaults
  end.

(** The lowering used with the ASCII sample data. *)
Definition sample_engine : string -> string := AsciiText.lower_text.

(** A lowering that gives what [String.prototype.toLowerCase] gives on the
    texts it meets in the sigma example: the capital sigma that ends the
    word of "ΑΣ Rossi" becomes the final sigma, the capital sigma alone
    becomes the plain sigma, and ASCII text is lowered letter by letter. *)
Definition final_sigma_engine (s : string) : string :=
  if String.eqb s "ΑΣ Rossi" then "ας rossi"
  else if String.eqb s "Σ" then "σ"
  else AsciiText.lower_text s.

Definition alexis : Employee.t := Employee.mk 7 "ΑΣ" "Rossi".

(** Sample data for the examples. *)
Definition anna : Employee.t := Employee.mk 1 "Anna" "Rossi".
Definition luca : Employee.t := Employee.mk 2 "Luca" "Bianchi".
Definition sara : Employee.t := Employee.mk 3 "Sara" "Verdi".

Definition casa_blu : Apartment.t :=
  Apartment.mk 10 "Casa Blu" "2024-05-20" (Some "09:00") None InCorso Pagato
    (Some "chiavi in portineria") [anna; sara].

Definition villa_rosa : Apartment.t :=
  Apartment.mk 11 "Villa Rosa" "2024-06-01" None (Some "12:30") DaFare DaPagare
    None [luca].

Definition open_on (a : nat) (apt : Apartment.t) : Props :=
  {| isOpen := true;
     apartment := Some {| addr := a; val := apt |};
     employees := [anna; luca; sara] |}.

(** The snapshot of the end-to-end property of the specification. *)
Definition fixture : Statistics.StatisticsData :=
  {| Statistics.totalOrders := 42;
     Statistics.topEmployee := {| Statistics.name := "Maria"; Statistics.count := 9 |};
     Statistics.orderStatusCounts := [];
     Statistics.paymentStatusCounts := [];
     Statistics.ordersByMonth := [{| Statistics.month_name := "2024-05"; Statistics.total := 12 |}];
     Statistics.busiestDay := {| Statistics.date := "2024-05-20"; Statistics.day_count := 7 |} |}.

(** The full modal open on [casa_blu], with the sub-form shown and the
    given names typed in. *)
Definition typing (first last : string) : Full.State :=
  Full.setNewEmployee {| NewEmployee.first_name := first; NewEmployee.last_name := last |}
    (Full.setShowAddEmployee true (Full.mount (open_on 1 casa_blu))).

(** Both modals open on [casa_blu] after a few edits. *)
Definition edits : list Event :=
  [ChangeName "Casa Verde"; ChangeStartTime "10:15"; SelectStatus Fatto;
   ChangeNotes "portare le chiavi"; ClickCheckbox 1].

Definition edited_full : Full.State :=
  fst (Full.run sample_engine (map Full.Common edits) (Full.mount (open_on 1 casa_blu))).

Definition edited_basic : Basic.State :=
  fst (Basic.run edits (Basic.mount (open_on 1 casa_blu))).

(* ------------------------------------------------------------------ *)
(** * What the modal shows *)

Module View.

(** One row of the checklist: the label next to the box and whether the
    box is drawn checked. *)
Record Box := { label : string; checked : bool }.

(** The checklist of the full modal: one row per filtered employee. *)
Definition full_checklist (toLowerCase : string -> string) (s : Full.State) : list Box :=
  map
    (fun employee =>
       {| label := Employee.first_name employee ++ " " ++ Employee.last_name employee;
          checked := Full.checked (ApartmentFormData.employee_ids (Full.form s)) employee |})
    (Full.filteredEmployees toLowerCase (employees (Full.props s)) (Full.employeeSearch s)).

(** The checklist of the basic modal: one row per employee. *)
Definition basic_checklist (s : Basic.State) : list Box :=
  map
    (fun employee =>
       {| label := Employee.first_name employee ++ " " ++ Employee.last_name employee;
          checked := Basic.checked (ApartmentFormData.employee_ids (Basic.form s)) employee |})
    (employees (Basic.props s)).

End View.

(* ------------------------------------------------------------------ *)
(** * Clicks on the employee card *)

Module CardClicks.

Inductive CardEffect :=
| stopPropagation
| onDelete (id : Z) (name : string)
| onClick.

(** Where on the card the click lands. *)
Inductive Target := DeleteButton | Elsewhere.

(** [handleDelete]: the handler of the delete button. *)
Definition handleDelete (employee : EmployeeCard.EmployeeWithAssignedApartments)
    : list CardEffect :=
  let fullName := EmployeeCard.first_name employee ++ " " ++ EmployeeCard.last_name employee in
  [stopPropagation; onDelete (EmployeeCard.id employee) fullName].

(** The handler of the card itself: the optional [onClick] prop. *)
Definition cardHandler (hasOnClick : bool) : list CardEffect :=
  if hasOnClick then [onClick] else [].

Definition stops (e : CardEffect) : bool :=
  match e with
  | stopPropagation => true
  | _ => false
  end.

(** A click runs the handler of its target and then bubbles to the card
    unless the handler stopped it. *)
Definition click (target : Target) (hasOnClick : bool)
    (employee : EmployeeCard.EmployeeWithAssignedApartments) : list CardEffect :=
  match target with
  | DeleteButton =>
      let out := handleDelete employee in
      if existsb stops out then out else (out ++ cardHandler hasOnClick)%list
  | Elsewhere => cardHandler hasOnClick
  end.

End CardClicks.

(* ------------------------------------------------------------------ *)
(** * Chart colours of the statistics page *)

Module Charts.

(** [PIE_COLORS], in the order of the source. *)
Definition PIE_COLORS : list (string * string) :=
  [("Da Fare", "hsl(var(--chart-5))");
   ("In Corso", "hsl(var(--chart-3))");
   ("Fatto", "hsl(var(--chart-2))");
   ("Da Pagare", "hsl(var(--chart-5))");
   ("Pagato", "hsl(var(--chart-2))")].

(** [PIE_COLORS[name]] among the keys of the table: the fill of a slice. *)
Fixpoint lookup (table : list (string * string)) (name : string) : option string :=
  match table with
  | [] => None
  | (key, colour) :: rest => if String.eqb key name then Some colour else lookup rest name
  end.

Definition fill (name : string) : option string := lookup PIE_COLORS name.

(** The fills of the slices of a pie, one [Cell] per entry. *)
Definition fills (entries : list Statistics.Slice) : list (option string) :=
  map (fun entry => fill (Statistics.slice_name entry)) entries.

End Charts.

(* ------------------------------------------------------------------ *)
(** * Notions for the properties of whole runs *)

(** A form as the modal keeps it: both statuses are values of their
    enumeration and the three optional texts are present. *)
Definition settled (f : ApartmentFormData.t) : Prop :=
  (exists s, ApartmentFormData.status f = status_str s)
  /\ (exists p, ApartmentFormData.payment_status f = payment_str p)
  /\ (exists t, ApartmentFormData.start_time f = Some t)
  /\ (exists t, ApartmentFormData.end_time f = Some t)
  /\ (exists t, ApartmentFormData.notes f = Some t).

(** The assigned employees of a target have pairwise distinct ids. *)
Definition distinct_ids (target : option (Obj Apartment.t)) : Prop :=
  match target with
  | Some a => NoDup (map Employee.id (Apartment.employees (val a)))
  | None => True
  end.

Definition renders_distinct (e : Event) : Prop :=
  match e with
  | Render p => distinct_ids (apartment p)
  | _ => True
  end.

Definition full_renders_distinct (e : Full.FullEvent) : Prop :=
  match e with
  | Full.Common e => renders_distinct e
  | _ => True
  end.

(** Events that leave the search box alone. *)
Definition no_search (e : Full.FullEvent) : Prop :=
  match e with
  | Full.ChangeEmployeeSearch _ => False
  | _ => True
  end.

(** Events that may change the names typed in the sub-form. *)
Definition keeps_names (e : Full.FullEvent) : Prop :=
  match e with
  | Full.ChangeNewFirstName _ | Full.ChangeNewLastName _ | Full.ClickAddEmployee _ _ => False
  | _ => True
  end.

(** The common events among the events of the full modal. *)
Definition common_events (es : list Full.FullEvent) : list Event :=
  flat_map (fun e => match e with Full.Common c => [c] | _ => [] end) es.

(** The calls of the two callback props among the effects. *)
Definition is_callback (e : Effect) : bool :=
  match e with
  | onSubmit _ | onClose => true
  | _ => false
  end.

Definition callbacks (out : list Effect) : list Effect := filter is_callback out.

Definition is_toast (e : Effect) : bool :=
  match e with
  | toast _ _ _ => true
  | _ => false
  end.

Definition is_request (e : Effect) : bool :=
  match e with
  | apiRequest _ _ _ => true
  | _ => false
  end.

Definition issues_of {A} (r : Zod.SafeParse A) : list Zod.Issue :=
  match r with
  | Zod.Success _ => []
  | Zod.Failure issues => issues
  end.

(** A card for the examples. *)
Definition anna_card : EmployeeCard.EmployeeWithAssignedApartments :=
  {| EmployeeCard.id := 1;
     EmployeeCard.first_name := "Anna";
     EmployeeCard.last_name := "Rossi";
     EmployeeCard.apartments := [casa_blu] |}.

Section Engine.
(** [String.prototype.toLowerCase] of the JavaScript engine. *)
Variable toLowerCase : string -> string.

(* ------------------------------------------------------------------ *)
(** * The employee checklist *)

Section Checklist.

Lemma array_includes_In (l : list Z) (x : Z) :
  JS.array_includes l x = true <-> In x l.
Proof.
  unfold JS.array_includes. rewrite existsb_exists. split.
  - intros [y [Hy Heq]]. apply Z.eqb_eq in Heq. now subst.
  - intros H. exists x. split; [assumption | apply Z.eqb_refl].
Qed.

Lemma array_includes_false (l : list Z) (x : Z) :
  JS.array_includes l x = false <-> ~ In x l.
Proof.
  rewrite <- array_includes_In. destruct (JS.array_includes l x); intuition congruence.
Qed.

Lemma basic_on_checked_change (v : list Z) (e : Employee.t) (c : bool) :
  Basic.onCheckedChange v e c = Full.onCheckedChange v e c.
Proof. reflexivity. Qed.

Lemma basic_click_full (v : list Z) (e : Employee.t) :
  basic_click v e = full_click v e.
Proof. reflexivity. Qed.

(** A click removes the id when it is in the list and appends it otherwise. *)
Lemma full_click_cases (v : list Z) (e : Employee.t) :
  full_click v e =
  if JS.array_includes v (Employee.id e)
  then filter (fun value => negb (Z.eqb value (Employee.id e))) v
  else (v ++ [Employee.id e])%list.
Proof.
  unfold full_click, click_checkbox, Full.checked, Full.onCheckedChange.
  now destruct (JS.array_includes v (Employee.id e)).
Qed.

Lemma in_remove_id (v : list Z) (i x : Z) :
  In x (filter (fun value => negb (Z.eqb value i)) v) <-> In x v /\ x <> i.
Proof.
  rewrite filter_In, negb_true_iff, Z.eqb_neq. reflexivity.
Qed.

Lemma in_full_click_other (v : list Z) (e : Employee.t) (x : Z) :
  x <> Employee.id e -> (In x (full_click v e) <-> In x v).
Proof.
  intros Hx. rewrite full_click_cases.
  destruct (JS.array_includes v (Employee.id e)).
  - rewrite in_remove_id. tauto.
  - rewrite in_app_iff. simpl. intuition congruence.
Qed.

Lemma in_full_click_same (v : list Z) (e : Employee.t) :
  In (Employee.id e) (full_click v e) <-> ~ In (Employee.id e) v.
Proof.
  rewrite full_click_cases.
  destruct (JS.array_includes v (Employee.id e)) eqn:Hin.
  - apply array_includes_In in Hin. rewrite in_remove_id. tauto.
  - apply array_includes_false in Hin. rewrite in_app_iff. simpl. tauto.
Qed.

Lemma NoDup_full_click (v : list Z) (e : Employee.t) :
  NoDup v -> NoDup (full_click v e).
Proof.
  intros Hv. rewrite full_click_cases.
  destruct (JS.array_includes v (Employee.id e)) eqn:Hin.
  - now apply NoDup_filter.
  - apply array_includes_false in Hin.
    apply NoDup_app; [assumption | repeat constructor; simpl; tauto |].
    intros x Hx [Heq | []]. now subst.
Qed.

(** One click keeps the list in step with the boxes. *)
Lemma click_tracks_boxes (v : list Z) (boxes : Z -> bool) (e : Employee.t) :
  (forall x, In x v <-> boxes x = true) ->
  forall x, In x (full_click v e) <-> flip_box (Employee.id e) boxes x = true.
Proof.
  intros Hv x. unfold flip_box.
  destruct (Z.eqb x (Employee.id e)) eqn:Hx.
  - apply Z.eqb_eq in Hx. subst x.
    rewrite in_full_click_same, Hv, negb_true_iff.
    destruct (boxes (Employee.id e)); intuition congruence.
  - apply Z.eqb_neq in Hx. rewrite in_full_click_other by assumption. apply Hv.
Qed.

Lemma clicks_track_boxes (clicks : list Employee.t) :
  forall (v : list Z) (boxes : Z -> bool),
    NoDup v ->
    (forall x, In x v <-> boxes x = true) ->
    NoDup (fold_left full_click clicks v)
    /\ forall x, In x (fold_left full_click clicks v) <-> boxes_after boxes clicks x = true.
Proof.
  unfold boxes_after.
  induction clicks as [| e clicks IH]; intros v boxes Hnd Hv; simpl.
  - split; assumption.
  - apply IH.
    + now apply NoDup_full_click.
    + now apply click_tracks_boxes.
Qed.

Lemma count_occ_remove_id (v : list Z) (i x : Z) :
  count_occ Z.eq_dec (filter (fun value => negb (Z.eqb value i)) v) x =
  if Z.eqb x i then 0%nat else count_occ Z.eq_dec v x.
Proof.
  induction v as [| y v IH]; simpl.
  - now destruct (Z.eqb x i).
  - destruct (Z.eqb y i) eqn:Hy; simpl.
    + apply Z.eqb_eq in Hy. subst y. rewrite IH.
      destruct (Z.eqb x i) eqn:Hx; [reflexivity |].
      apply Z.eqb_neq in Hx. destruct (Z.eq_dec i x); congruence.
    + apply Z.eqb_neq in Hy. rewrite IH.
      destruct (Z.eq_dec y x) as [-> | Hne].
      * apply Z.eqb_neq in Hy. now rewrite Hy.
      * now destruct (Z.eqb x i).
Qed.

Lemma count_occ_append_id (v : list Z) (i x : Z) :
  count_occ Z.eq_dec (v ++ [i]) x =
  if Z.eqb x i then S (count_occ Z.eq_dec v x) else count_occ Z.eq_dec v x.
Proof.
  rewrite count_occ_app. simpl.
  destruct (Z.eq_dec i x) as [-> | Hne].
  - rewrite Z.eqb_refl. lia.
  - assert (Hx : Z.eqb x i = false) by (apply Z.eqb_neq; congruence).
    rewrite Hx. lia.
Qed.

Lemma double_click_same_set (v : list Z) (e : Employee.t) (x : Z) :
  In x (full_click (full_click v e) e) <-> In x v.
Proof.
  destruct (Z.eq_dec x (Employee.id e)) as [-> | Hne].
  - rewrite in_full_click_same, in_full_click_same.
    destruct (in_dec Z.eq_dec (Employee.id e) v); tauto.
  - now rewrite !in_full_click_other.
Qed.

Lemma double_click_permutation (v : list Z) (e : Employee.t) :
  NoDup v -> Permutation (full_click (full_click v e) e) v.
Proof.
  intros Hv. apply NoDup_Permutation.
  - now repeat apply NoDup_full_click.
  - assumption.
  - intros x. apply double_click_same_set.
Qed.

End Checklist.

(* ------------------------------------------------------------------ *)
(** * Runs of the two modals *)

Section Runs.

Lemma full_fst_run_cons (e : Full.FullEvent) (es : list Full.FullEvent) (s : Full.State) :
  fst (Full.run toLowerCase (e :: es) s) = fst (Full.run toLowerCase es (fst (Full.step toLowerCase e s))).
Proof.
  simpl. destruct (Full.step toLowerCase e s) as [s1 out1]. simpl.
  now destruct (Full.run toLowerCase es s1).
Qed.

Lemma basic_fst_run_cons (e : Event) (es : list Event) (s : Basic.State) :
  fst (Basic.run (e :: es) s) = fst (Basic.run es (fst (Basic.step e s))).
Proof.
  simpl. destruct (Basic.step e s) as [s1 out1]. simpl.
  now destruct (Basic.run es s1).
Qed.

Lemma filteredEmployees_empty (shown : list Employee.t) :
  Full.filteredEmployees toLowerCase shown "" = shown.
Proof. reflexivity. Qed.

(** One click on the checklist of the full modal. *)
Lemma full_step_click (i : nat) (s : Full.State) :
  isOpen (Full.props s) = true ->
  let s' := fst (Full.step toLowerCase (Full.Common (ClickCheckbox i)) s) in
  Full.props s' = Full.props s
  /\ Full.employeeSearch s' = Full.employeeSearch s
  /\ ApartmentFormData.employee_ids (Full.form s') =
     fold_left full_click
       (clicked (Full.filteredEmployees toLowerCase (employees (Full.props s)) (Full.employeeSearch s)) [i])
       (ApartmentFormData.employee_ids (Full.form s)).
Proof.
  intros Hopen. simpl. rewrite Hopen. simpl.
  destruct (nth_error _ i) as [e |]; simpl; auto.
Qed.

Lemma basic_step_click (i : nat) (s : Basic.State) :
  isOpen (Basic.props s) = true ->
  let s' := fst (Basic.step (ClickCheckbox i) s) in
  Basic.props s' = Basic.props s
  /\ ApartmentFormData.employee_ids (Basic.form s') =
     fold_left full_click (clicked (employees (Basic.props s)) [i])
       (ApartmentFormData.employee_ids (Basic.form s)).
Proof.
  intros Hopen. simpl. rewrite Hopen. simpl.
  destruct (nth_error _ i) as [e |]; simpl; auto.
Qed.

Lemma clicked_cons (shown : list Employee.t) (i : nat) (positions : list nat) :
  clicked shown (i :: positions) = (clicked shown [i] ++ clicked shown positions)%list.
Proof. unfold clicked. simpl. now rewrite app_nil_r. Qed.

(** A run of clicks on the full modal folds [full_click] over the
    employees behind the clicked positions. *)
Lemma full_run_clicks (positions : list nat) :
  forall s : Full.State,
    isOpen (Full.props s) = true ->
    ApartmentFormData.employee_ids
      (Full.form (fst (Full.run toLowerCase (map Full.Common (map ClickCheckbox positions)) s))) =
    fold_left full_click
      (clicked (Full.filteredEmployees toLowerCase (employees (Full.props s)) (Full.employeeSearch s))
         positions)
      (ApartmentFormData.employee_ids (Full.form s)).
Proof.
  induction positions as [| i positions IH]; intros s Hopen.
  - reflexivity.
  - cbn [map]. rewrite full_fst_run_cons.
    destruct (full_step_click i s Hopen) as (Hp & Hs & Hids).
    rewrite IH by (now rewrite Hp).
    rewrite Hp, Hs, Hids, (clicked_cons _ i positions), fold_left_app.
    reflexivity.
Qed.

Lemma basic_run_clicks (positions : list nat) :
  forall s : Basic.State,
    isOpen (Basic.props s) = true ->
    ApartmentFormData.employee_ids
      (Basic.form (fst (Basic.run (map ClickCheckbox positions) s))) =
    fold_left full_click (clicked (employees (Basic.props s)) positions)
      (ApartmentFormData.employee_ids (Basic.form s)).
Proof.
  induction positions as [| i positions IH]; intros s Hopen.
  - reflexivity.
  - cbn [map]. rewrite basic_fst_run_cons.
    destruct (basic_step_click i s Hopen) as (Hp & Hids).
    rewrite IH by (now rewrite Hp).
    rewrite Hp, Hids, (clicked_cons _ i positions), fold_left_app.
    reflexivity.
Qed.

End Runs.

(** C1.  In both variants of the modal, opened on an apartment whose
    assigned employees have pairwise distinct ids, after any sequence of
    clicks on checkboxes of the checklist the [employee_ids] field has no
    duplicate and holds exactly the ids whose boxes are checked.  Checking
    a box adds one occurrence of its id and changes no other count,
    unchecking leaves no occurrence of it and changes no other count, and
    two clicks on the same box give back the same set of ids (the same
    list up to order when it had no duplicate). *)
Theorem employee_ids_reflect_checkboxes :
  forall (a : Obj Apartment.t) (shown : list Employee.t) (positions : list nat),
    NoDup (map Employee.id (Apartment.employees (val a))) ->
    let p := {| isOpen := true; apartment := Some a; employees := shown |} in
    let clicks := map ClickCheckbox positions in
    let initial := map Employee.id (Apartment.employees (val a)) in
    let boxes := boxes_after (JS.array_includes initial) (clicked shown positions) in
    let full_ids :=
      ApartmentFormData.employee_ids
        (Full.form (fst (Full.run toLowerCase (map Full.Common clicks) (Full.mount p)))) in
    let basic_ids :=
      ApartmentFormData.employee_ids (Basic.form (fst (Basic.run clicks (Basic.mount p)))) in
    (NoDup full_ids /\ forall x, In x full_ids <-> boxes x = true)
    /\ (NoDup basic_ids /\ forall x, In x basic_ids <-> boxes x = true)
    /\ (forall v e x,
          count_occ Z.eq_dec (Full.onCheckedChange v e true) x =
          (if Z.eqb x (Employee.id e) then S (count_occ Z.eq_dec v x) else count_occ Z.eq_dec v x)
          /\ count_occ Z.eq_dec (Full.onCheckedChange v e false) x =
             (if Z.eqb x (Employee.id e) then 0%nat else count_occ Z.eq_dec v x)
          /\ Basic.onCheckedChange v e true = Full.onCheckedChange v e true
          /\ Basic.onCheckedChange v e false = Full.onCheckedChange v e false)
    /\ (forall v e,
          (forall x, In x (full_click (full_click v e) e) <-> In x v)
          /\ (forall x, In x (basic_click (basic_click v e) e) <-> In x v)
          /\ (NoDup v -> Permutation (full_click (full_click v e) e) v)
          /\ (NoDup v -> Permutation (basic_click (basic_click v e) e) v)).
Proof.
  intros a shown positions Hnd p clicks initial boxes full_ids basic_ids.
  assert (Hseq : NoDup (fold_left full_click (clicked shown positions) initial)
                 /\ forall x, In x (fold_left full_click (clicked shown positions) initial)
                              <-> boxes x = true).
  { apply clicks_track_boxes; [exact Hnd |].
    intros x. symmetry. apply array_includes_In. }
  assert (Hfull : full_ids = fold_left full_click (clicked shown positions) initial).
  { unfold full_ids, clicks. now rewrite full_run_clicks. }
  assert (Hbasic : basic_ids = fold_left full_click (clicked shown positions) initial).
  { unfold basic_ids, clicks. now rewrite basic_run_clicks. }
  rewrite Hfull, Hbasic.
  split; [exact Hseq |]. split; [exact Hseq |]. split.
  - intros v e x. repeat split.
    + apply count_occ_append_id.
    + apply count_occ_remove_id.
  - intros v e. repeat split;
      try (apply double_click_same_set); try (apply double_click_permutation; assumption);
      intros H; apply (proj2 (double_click_same_set v e _)); exact H.
Qed.

(* ------------------------------------------------------------------ *)
(** * Employee search *)

Section Search.

Lemma nat_of_ascii_inj (a b : ascii) :
  nat_of_ascii a = nat_of_ascii b -> a = b.
Proof.
  intros H. rewrite <- (ascii_nat_embedding a), <- (ascii_nat_embedding b).
  now rewrite H.
Qed.

Lemma nat_of_lower (c : ascii) :
  nat_of_ascii (AsciiText.lower c) =
  if (65 <=? nat_of_ascii c)%nat && (nat_of_ascii c <=? 90)%nat
  then (nat_of_ascii c + 32)%nat
  else nat_of_ascii c.
Proof.
  unfold AsciiText.lower.
  destruct ((65 <=? nat_of_ascii c)%nat && (nat_of_ascii c <=? 90)%nat) eqn:Hu;
    [| reflexivity].
  apply andb_true_iff in Hu. destruct Hu as [_ Hle]. apply Nat.leb_le in Hle.
  apply nat_ascii_embedding. lia.
Qed.

Lemma upper_test (c : ascii) :
  (65 <=? nat_of_ascii c)%nat && (nat_of_ascii c <=? 90)%nat = true <-> is_upper c.
Proof.
  unfold is_upper. rewrite andb_true_iff, !Nat.leb_le. reflexivity.
Qed.

(** Two characters have the same lower-case form exactly when they are
    the same character or the two cases of one letter. *)
Lemma lower_eq_iff (a b : ascii) :
  AsciiText.lower a = AsciiText.lower b <-> same_char_ci a b.
Proof.
  unfold same_char_ci, upper_lower. split.
  - intros H. apply (f_equal nat_of_ascii) in H. rewrite !nat_of_lower in H.
    destruct ((65 <=? nat_of_ascii a)%nat && (nat_of_ascii a <=? 90)%nat) eqn:Ha;
    destruct ((65 <=? nat_of_ascii b)%nat && (nat_of_ascii b <=? 90)%nat) eqn:Hb.
    + left. apply nat_of_ascii_inj. lia.
    + right. left. apply upper_test in Ha. split; [assumption | lia].
    + right. right. apply upper_test in Hb. split; [assumption | lia].
    + left. now apply nat_of_ascii_inj.
  - intros [-> | [[Ha Hab] | [Hb Hba]]]; [reflexivity | |];
      apply nat_of_ascii_inj; rewrite !nat_of_lower.
    + assert (Hb : (65 <=? nat_of_ascii b)%nat && (nat_of_ascii b <=? 90)%nat = false).
      { apply not_true_iff_false. rewrite upper_test. unfold is_upper in *. lia. }
      apply upper_test in Ha. rewrite Ha, Hb. lia.
    + assert (Ha : (65 <=? nat_of_ascii a)%nat && (nat_of_ascii a <=? 90)%nat = false).
      { apply not_true_iff_false. rewrite upper_test. unfold is_upper in *. lia. }
      apply upper_test in Hb. rewrite Ha, Hb. lia.
Qed.

Lemma toLowerCase_eq_iff (u : string) :
  forall s, AsciiText.lower_text u = AsciiText.lower_text s <-> same_text_ci u s.
Proof.
  induction u as [| a u IH]; intros [| b s]; simpl; try (split; [discriminate | tauto]).
  - tauto.
  - rewrite <- IH, <- lower_eq_iff. split.
    + intros H. injection H. auto.
    + intros [-> ->]. reflexivity.
Qed.

Lemma toLowerCase_app (a b : string) :
  AsciiText.lower_text (a ++ b) = AsciiText.lower_text a ++ AsciiText.lower_text b.
Proof.
  induction a as [| c a IH]; simpl; [reflexivity | now rewrite IH].
Qed.

(** A lowered text splits where its lowered form splits. *)
Lemma toLowerCase_split (x : string) :
  forall t y, AsciiText.lower_text t = x ++ y ->
    exists a b, t = a ++ b /\ AsciiText.lower_text a = x /\ AsciiText.lower_text b = y.
Proof.
  induction x as [| c x IH]; intros t y H.
  - exists "", t. auto.
  - destruct t as [| d t]; simpl in H; [discriminate |].
    injection H as Hc Ht.
    destruct (IH t y Ht) as (a & b & -> & Ha & Hb).
    exists (String d a), b. simpl. now rewrite Hc, Ha.
Qed.

Lemma prefix_iff (sub : string) :
  forall s, String.prefix sub s = true <-> exists rest, s = sub ++ rest.
Proof.
  induction sub as [| c sub IH]; intros s.
  - split; [intros _; now exists s | intros _; now destruct s].
  - destruct s as [| d s]; simpl.
    + split; [discriminate | intros [rest H]; discriminate].
    + destruct (ascii_dec c d) as [Heq | Hne].
      * subst d. rewrite IH. split; intros [rest H]; exists rest.
        -- now rewrite H.
        -- now injection H.
      * split; [discriminate | intros [rest H]; injection H; congruence].
Qed.

Lemma includes_nil (sub : string) :
  JS.includes "" sub = String.prefix sub "" || false.
Proof. reflexivity. Qed.

Lemma includes_cons (c : ascii) (s sub : string) :
  JS.includes (String c s) sub = String.prefix sub (String c s) || JS.includes s sub.
Proof. reflexivity. Qed.

Lemma includes_iff (s : string) :
  forall sub, JS.includes s sub = true <-> exists before after, s = before ++ sub ++ after.
Proof.
  induction s as [| c s IH]; intros sub.
  - rewrite includes_nil, orb_true_iff, prefix_iff. split.
    + intros [[rest H] | H]; [| discriminate]. now exists "", rest.
    + intros (before & after & H). left.
      destruct before; [| discriminate]. now exists after.
  - rewrite includes_cons, orb_true_iff, prefix_iff, IH. split.
    + intros [[rest H] | (before & after & H)].
      * now exists "", rest.
      * exists (String c before), after. simpl. now rewrite H.
    + intros (before & after & H). destruct before as [| d before].
      * left. now exists after.
      * right. simpl in H. injection H as _ H. now exists before, after.
Qed.

(** Lowering two ASCII texts and testing inclusion decides containment
    ignoring the case of letters. *)
Lemma includes_lower_iff (text search : string) :
  JS.includes (AsciiText.lower_text text) (AsciiText.lower_text search) = true
  <-> contains_ci_ascii text search.
Proof.
  unfold contains_ci_ascii. rewrite includes_iff. split.
  - intros (x & z & H).
    destruct (toLowerCase_split _ _ _ H) as (before & rest & -> & Hb & Hrest).
    destruct (toLowerCase_split _ _ _ Hrest) as (found & after & -> & Hf & Ha).
    exists before, found, after. split; [reflexivity | now apply toLowerCase_eq_iff].
  - intros (before & found & after & -> & Hci).
    exists (AsciiText.lower_text before), (AsciiText.lower_text after).
    apply toLowerCase_eq_iff in Hci. now rewrite !toLowerCase_app, Hci.
Qed.

Lemma contains_ci_empty (text : string) : contains_ci_ascii text "".
Proof. exists "", "", text. simpl. auto. Qed.

Lemma is_ascii_app (a b : string) :
  AsciiText.is_ascii (a ++ b) = AsciiText.is_ascii a && AsciiText.is_ascii b.
Proof.
  induction a as [| c a IH]; simpl; [reflexivity |].
  rewrite IH. apply andb_assoc.
Qed.

Lemma append_empty (a b : string) : a ++ b = "" -> a = "" /\ b = "".
Proof. destruct a; simpl; [auto | discriminate]. Qed.

(** Membership in the filtered list, for whatever lowering the engine
    applies. *)
Lemma in_filteredEmployees (shown : list Employee.t) (search : string) (e : Employee.t) :
  In e (Full.filteredEmployees toLowerCase shown search)
  <-> In e shown
      /\ (search = ""
          \/ JS.includes (toLowerCase (display_name e)) (toLowerCase search) = true).
Proof.
  unfold Full.filteredEmployees, JS.not_string.
  destruct (String.eqb search "") eqn:Hs.
  - apply String.eqb_eq in Hs. tauto.
  - apply String.eqb_neq in Hs. rewrite filter_In. unfold display_name. tauto.
Qed.

End Search.

(** C7.  The checklist shows exactly the employees whose lower-cased name,
    first name then a space then last name, contains the lower-cased
    search text as a substring, both lowered by [toLowerCase]; with the
    empty search text it shows the list it was given.  When names and
    search text are ASCII, on which [toLowerCase] lowers letter by letter,
    these are the employees whose name contains the search text when the
    case of letters is ignored. *)
Theorem filteredEmployees_matches_lowered_search :
  forall (shown : list Employee.t) (search : string),
    (forall e, In e (Full.filteredEmployees toLowerCase shown search)
               <-> In e shown
                   /\ (search = ""
                       \/ exists before after,
                            toLowerCase (display_name e)
                            = before ++ toLowerCase search ++ after))
    /\ Full.filteredEmployees toLowerCase shown "" = shown
    /\ (lowers_ascii toLowerCase ->
        AsciiText.is_ascii search = true ->
        forall e, AsciiText.is_ascii (display_name e) = true ->
                  (In e (Full.filteredEmployees toLowerCase shown search)
                   <-> In e shown /\ contains_ci_ascii (display_name e) search)).
Proof.
  intros shown search. split; [| split; [reflexivity |]].
  - intros e. rewrite in_filteredEmployees, includes_iff. tauto.
  - intros Hascii Hsearch e He.
    rewrite in_filteredEmployees, (Hascii _ He), (Hascii _ Hsearch), includes_lower_iff.
    split; [| tauto]. intros [Hin [-> | Hc]]; split; auto using contains_ci_empty.
Qed.

(* ------------------------------------------------------------------ *)
(** * The two variants side by side *)

Section Variants.

Lemma formSchema_same (v : ApartmentFormData.t) :
  Full.formSchema v = Basic.formSchema v.
Proof. reflexivity. Qed.

Lemma defaultValues_same (a : option (Obj Apartment.t)) :
  Full.defaultValues a = Basic.defaultValues a.
Proof. reflexivity. Qed.

Lemma resetEffect_same (b : bool) (a : option (Obj Apartment.t))
    (sF : Full.State) (sB : Basic.State) :
  Full.form sF = Basic.form sB ->
  Full.form (Full.resetEffect b a sF) = Basic.form (Basic.resetEffect b a sB).
Proof. intros H. destruct b; simpl; [reflexivity | exact H]. Qed.

Lemma mount_same (p : Props) :
  Full.form (Full.mount p) = Basic.form (Basic.mount p)
  /\ Full.props (Full.mount p) = Basic.props (Basic.mount p)
  /\ Full.employeeSearch (Full.mount p) = "".
Proof. unfold Full.mount, Basic.mount. destruct (isOpen p); simpl; auto. Qed.

(** One common event keeps the two modals in step as long as the search
    box of the full one is empty, and both perform the same effects. *)
Lemma step_same (e : Event) (sF : Full.State) (sB : Basic.State) :
  Full.form sF = Basic.form sB ->
  Full.props sF = Basic.props sB ->
  Full.employeeSearch sF = "" ->
  snd (Full.step toLowerCase (Full.Common e) sF) = snd (Basic.step e sB)
  /\ Full.form (fst (Full.step toLowerCase (Full.Common e) sF)) = Basic.form (fst (Basic.step e sB))
  /\ Full.props (fst (Full.step toLowerCase (Full.Common e) sF)) = Basic.props (fst (Basic.step e sB))
  /\ Full.employeeSearch (fst (Full.step toLowerCase (Full.Common e) sF)) = "".
Proof.
  intros Hform Hprops Hsearch.
  destruct e; cbn [Full.step Full.step_common Basic.step];
    try (rewrite Hprops; destruct (isOpen (Basic.props sB)); simpl;
         rewrite ?Hform, ?Hprops, ?Hsearch; auto; fail).
  - (* Render *)
    unfold Full.render, Basic.render. rewrite Hprops. simpl.
    destruct (deps_changed (Basic.props sB) p); [destruct (isOpen p) |]; simpl; auto.
  - (* ClickCheckbox *)
    rewrite Hprops. destruct (isOpen (Basic.props sB)); simpl; [| auto].
    rewrite Hsearch, filteredEmployees_empty, Hform.
    destruct (nth_error (employees (Basic.props sB)) i); simpl;
      rewrite ?Hform; auto.
Qed.

Lemma run_same (es : list Event) :
  forall (sF : Full.State) (sB : Basic.State),
    Full.form sF = Basic.form sB ->
    Full.props sF = Basic.props sB ->
    Full.employeeSearch sF = "" ->
    snd (Full.run toLowerCase (map Full.Common es) sF) = snd (Basic.run es sB)
    /\ Full.form (fst (Full.run toLowerCase (map Full.Common es) sF)) = Basic.form (fst (Basic.run es sB)).
Proof.
  induction es as [| e es IH]; intros sF sB Hform Hprops Hsearch.
  - simpl. auto.
  - destruct (step_same e sF sB Hform Hprops Hsearch) as (Hout & Hf & Hp & Hs).
    specialize (IH _ _ Hf Hp Hs).
    cbn [map Full.run Basic.run].
    destruct (Full.step toLowerCase (Full.Common e) sF) as [sF1 outF1].
    destruct (Basic.step e sB) as [sB1 outB1].
    simpl in *.
    destruct (Full.run toLowerCase (map Full.Common es) sF1) as [sF2 outF2].
    destruct (Basic.run es sB1) as [sB2 outB2].
    simpl in *. destruct IH as [IHout IHform]. subst. auto.
Qed.

End Variants.

(** C3.  The modal with inline employee creation and the modal without it
    agree on what they share: the same validation schema, the same initial
    values, the same reset, and, mounted with the same props and driven by
    the same sequence of events that leave the search box and the
    new-employee sub-form alone, the same form values and the same calls of
    the submit and close callbacks with the same validated data. *)
Theorem variants_agree_on_shared_behaviour :
  (forall v, Full.formSchema v = Basic.formSchema v)
  /\ (forall a, Full.defaultValues a = Basic.defaultValues a)
  /\ (forall b a sF,
        Full.form (Full.resetEffect b a sF) =
        Basic.form (Basic.resetEffect b a (Basic.mkState (Full.form sF) (Full.props sF))))
  /\ (forall (p : Props) (es : list Event),
        snd (Full.run toLowerCase (map Full.Common es) (Full.mount p)) = snd (Basic.run es (Basic.mount p))
        /\ Full.form (fst (Full.run toLowerCase (map Full.Common es) (Full.mount p))) =
           Basic.form (fst (Basic.run es (Basic.mount p)))).
Proof.
  split; [exact formSchema_same |].
  split; [exact defaultValues_same |].
  split; [intros b a sF; now apply resetEffect_same |].
  intros p es. destruct (mount_same p) as (Hf & Hp & Hs).
  now apply run_same.
Qed.

(* ------------------------------------------------------------------ *)
(** * Validation and submission *)

Section Validation.

Lemma string_min1_nil (p msg v : string) :
  Zod.string_min1 p msg v = [] <-> v <> "".
Proof.
  unfold Zod.string_min1. destruct v as [| c v]; simpl.
  - split; [discriminate | congruence].
  - split; [discriminate | reflexivity].
Qed.

Lemma enum_nil (options : list string) (p v : string) :
  Zod.enum options p v = [] <-> In v options.
Proof.
  unfold Zod.enum. destruct (existsb (String.eqb v) options) eqn:H.
  - apply existsb_exists in H. destruct H as (o & Hin & Heq).
    apply String.eqb_eq in Heq. subst o. tauto.
  - split; [discriminate |]. intros Hin. exfalso.
    assert (Ht : existsb (String.eqb v) options = true).
    { apply existsb_exists. exists v. split; [assumption | apply String.eqb_refl]. }
    congruence.
Qed.

Lemma result_success {A} (data : A) (issues : list Zod.Issue) :
  issues = [] -> Zod.result data issues = Zod.Success data.
Proof. intros ->. reflexivity. Qed.

Lemma result_failure {A} (data : A) (issues : list Zod.Issue) :
  issues <> [] -> Zod.result data issues = Zod.Failure issues.
Proof. destruct issues; [congruence | reflexivity]. Qed.

(** The issues of the apartment schema, field by field. *)
Lemma formSchema_issues (v : ApartmentFormData.t) :
  (Zod.string_min1 "name" "Il nome è obbligatorio" (ApartmentFormData.name v)
   ++ Zod.string_min1 "cleaning_date" "La data è obbligatoria" (ApartmentFormData.cleaning_date v)
   ++ Zod.string_optional "start_time" (ApartmentFormData.start_time v)
   ++ Zod.string_optional "end_time" (ApartmentFormData.end_time v)
   ++ Zod.enum ["Da Fare"; "In Corso"; "Fatto"] "status" (ApartmentFormData.status v)
   ++ Zod.enum ["Da Pagare"; "Pagato"] "payment_status" (ApartmentFormData.payment_status v)
   ++ Zod.string_optional "notes" (ApartmentFormData.notes v)
   ++ Zod.array_number "employee_ids" (ApartmentFormData.employee_ids v))%list = []
  <-> valid_apartment_form v.
Proof.
  unfold valid_apartment_form, Zod.string_optional, Zod.array_number. simpl.
  rewrite !app_nil_r.
  rewrite <- (string_min1_nil "name" "Il nome è obbligatorio"),
          <- (string_min1_nil "cleaning_date" "La data è obbligatoria").
  assert (Hs : Zod.enum ["Da Fare"; "In Corso"; "Fatto"] "status" (ApartmentFormData.status v) = []
               <-> ApartmentFormData.status v = "Da Fare"
                   \/ ApartmentFormData.status v = "In Corso"
                   \/ ApartmentFormData.status v = "Fatto").
  { rewrite enum_nil. simpl. intuition congruence. }
  assert (Hp : Zod.enum ["Da Pagare"; "Pagato"] "payment_status"
                 (ApartmentFormData.payment_status v) = []
               <-> ApartmentFormData.payment_status v = "Da Pagare"
                   \/ ApartmentFormData.payment_status v = "Pagato").
  { rewrite enum_nil. simpl. intuition congruence. }
  rewrite <- Hs, <- Hp.
  split.
  - intros H.
    apply app_eq_nil in H. destruct H as [H1 H].
    apply app_eq_nil in H. destruct H as [H2 H].
    apply app_eq_nil in H. destruct H as [H3 H4]. auto.
  - intros (H1 & H2 & H3 & H4). now rewrite H1, H2, H3, H4.
Qed.

Lemma handleSubmit_valid (v : ApartmentFormData.t) :
  valid_apartment_form v -> handleSubmit Full.formSchema v = [onSubmit v].
Proof.
  intros Hv. unfold handleSubmit, Full.formSchema.
  rewrite result_success; [reflexivity | now apply formSchema_issues].
Qed.

Lemma handleSubmit_invalid (v : ApartmentFormData.t) :
  ~ valid_apartment_form v -> handleSubmit Full.formSchema v = [].
Proof.
  intros Hv. unfold handleSubmit, Full.formSchema.
  rewrite result_failure; [reflexivity |].
  intros H. apply Hv. now apply formSchema_issues.
Qed.

Lemma valid_apartment_form_dec (v : ApartmentFormData.t) :
  valid_apartment_form v \/ ~ valid_apartment_form v.
Proof.
  destruct (formSchema_issues v) as [Hto Hfrom].
  match type of Hto with ?l = [] -> _ => destruct l eqn:E end.
  - left. now apply Hto.
  - right. intros Hv. apply Hfrom in Hv. discriminate.
Qed.

End Validation.

(** C4.  In both variants, submitting the open form calls the submit
    callback, once and with the form values, exactly when the name and the
    cleaning date are non-empty, the status is one of the three status
    values and the payment status one of the two payment values; start
    time, end time and notes play no part, and when a rule fails the
    callback is not called. *)
Theorem submit_iff_valid :
  forall (sF : Full.State) (sB : Basic.State),
    let submittedF := snd (Full.step toLowerCase (Full.Common Submit) sF) in
    let submittedB := snd (Basic.step Submit sB) in
    (isOpen (Full.props sF) = true ->
       (valid_apartment_form (Full.form sF) <-> submittedF = [onSubmit (Full.form sF)])
       /\ (~ valid_apartment_form (Full.form sF) <-> submittedF = []))
    /\ (isOpen (Basic.props sB) = true ->
          (valid_apartment_form (Basic.form sB) <-> submittedB = [onSubmit (Basic.form sB)])
          /\ (~ valid_apartment_form (Basic.form sB) <-> submittedB = []))
    /\ (forall start_time end_time notes,
          valid_apartment_form (Full.form sF) ->
          valid_apartment_form
            (ApartmentFormData.set_start_time start_time
               (ApartmentFormData.set_end_time end_time
                  (ApartmentFormData.set_notes notes (Full.form sF))))).
Proof.
  intros sF sB submittedF submittedB.
  assert (Hkey : forall v effects,
             effects = handleSubmit Full.formSchema v ->
             (valid_apartment_form v <-> effects = [onSubmit v])
             /\ (~ valid_apartment_form v <-> effects = [])).
  { intros v effects ->.
    destruct (valid_apartment_form_dec v) as [Hv | Hv].
    - rewrite (handleSubmit_valid Hv). split; split; intros; try tauto; try discriminate.
    - rewrite (handleSubmit_invalid Hv). split; split; intros; try tauto; try discriminate. }
  split; [| split].
  - intros Hopen. apply Hkey. unfold submittedF. simpl. now rewrite Hopen.
  - intros Hopen. apply Hkey. unfold submittedB. simpl. now rewrite Hopen.
  - intros st et n (H1 & H2 & H3 & H4). repeat split; assumption.
Qed.

(* ------------------------------------------------------------------ *)
(** * Inline employee creation *)

Section AddEmployee.

Lemma newEmployeeSchema_success (v : NewEmployee.t) :
  Zod.success (Full.newEmployeeSchema v) = true
  <-> NewEmployee.first_name v <> "" /\ NewEmployee.last_name v <> "".
Proof.
  destruct v as [[| c first] [| d last]]; simpl;
    intuition (try discriminate; try congruence).
Qed.

Lemma handleAddNewEmployee_blank (post invalidate : Outcome) (s : Full.State) :
  NewEmployee.first_name (Full.newEmployee s) = ""
  \/ NewEmployee.last_name (Full.newEmployee s) = "" ->
  exec (Full.handleAddNewEmployee post invalidate) s =
  (s, [toast "Errore" "Nome e cognome sono obbligatori." true]).
Proof.
  intros Hblank.
  assert (Hfail : Zod.success (Full.newEmployeeSchema (Full.newEmployee s)) = false).
  { apply not_true_iff_false. rewrite newEmployeeSchema_success. tauto. }
  unfold exec, Full.handleAddNewEmployee, bind, gets. simpl.
  now rewrite Hfail.
Qed.

Lemma handleAddNewEmployee_filled (post invalidate : Outcome) (s : Full.State) :
  NewEmployee.first_name (Full.newEmployee s) <> "" ->
  NewEmployee.last_name (Full.newEmployee s) <> "" ->
  exec (Full.handleAddNewEmployee post invalidate) s =
  match post, invalidate with
  | Rejected message, _ =>
      (s, [apiRequest "POST" "/api/employees" (Full.newEmployee s);
           toast "Errore" ("Errore durante l'aggiunta: " ++ message) true])
  | Resolved, Rejected message =>
      (s, [apiRequest "POST" "/api/employees" (Full.newEmployee s);
           invalidateQueries "/api/employees";
           toast "Errore" ("Errore durante l'aggiunta: " ++ message) true])
  | Resolved, Resolved =>
      (Full.setShowAddEmployee false
         (Full.setNewEmployee
            {| NewEmployee.first_name := ""; NewEmployee.last_name := "" |} s),
       [apiRequest "POST" "/api/employees" (Full.newEmployee s);
        invalidateQueries "/api/employees";
        toast "Successo" "Dipendente aggiunto con successo." false])
  end.
Proof.
  intros Hfirst Hlast.
  assert (Hok : Zod.success (Full.newEmployeeSchema (Full.newEmployee s)) = true).
  { apply newEmployeeSchema_success. tauto. }
  unfold exec, Full.handleAddNewEmployee, bind, gets. simpl.
  rewrite Hok. simpl.
  destruct post as [| m]; [destruct invalidate as [| m] |]; reflexivity.
Qed.

Lemma step_ClickAddEmployee (post invalidate : Outcome) (s : Full.State) :
  isOpen (Full.props s) = true ->
  Full.showAddEmployee s = true ->
  Full.step toLowerCase (Full.ClickAddEmployee post invalidate) s =
  exec (Full.handleAddNewEmployee post invalidate) s.
Proof. intros Hopen Hshown. simpl. now rewrite Hopen, Hshown. Qed.

Lemma setters_changed_fields (s : Full.State) :
  let s' :=
    Full.setShowAddEmployee false
      (Full.setNewEmployee {| NewEmployee.first_name := ""; NewEmployee.last_name := "" |} s) in
  Full.newEmployee s' = {| NewEmployee.first_name := ""; NewEmployee.last_name := "" |}
  /\ Full.showAddEmployee s' = false
  /\ Full.form s' = Full.form s
  /\ Full.employeeSearch s' = Full.employeeSearch s
  /\ Full.props s' = Full.props s.
Proof. simpl. auto. Qed.

End AddEmployee.

(** C5.  With the new-employee sub-form shown, pressing its button while the
    first name or the last name is empty sends no request: the only effect is
    the validation toast, and the state is untouched.  A create-employee
    request is sent exactly when both names are non-empty. *)
Theorem blank_new_employee_sends_nothing :
  forall (s : Full.State) (post invalidate : Outcome),
    isOpen (Full.props s) = true ->
    Full.showAddEmployee s = true ->
    let first := NewEmployee.first_name (Full.newEmployee s) in
    let last := NewEmployee.last_name (Full.newEmployee s) in
    let after := Full.step toLowerCase (Full.ClickAddEmployee post invalidate) s in
    (first = "" \/ last = "" ->
       after = (s, [toast "Errore" "Nome e cognome sono obbligatori." true]))
    /\ ((exists method url body, In (apiRequest method url body) (snd after))
        <-> first <> "" /\ last <> "")
    /\ (first <> "" /\ last <> "" ->
          In (apiRequest "POST" "/api/employees" (Full.newEmployee s)) (snd after)).
Proof.
  intros s post invalidate Hopen Hshown first last after.
  unfold after. rewrite step_ClickAddEmployee by assumption.
  assert (Hsent : first <> "" /\ last <> "" ->
                  In (apiRequest "POST" "/api/employees" (Full.newEmployee s))
                    (snd (exec (Full.handleAddNewEmployee post invalidate) s))).
  { intros [Hf Hl]. rewrite handleAddNewEmployee_filled by assumption.
    destruct post; [destruct invalidate |]; simpl; auto. }
  split; [| split].
  - apply handleAddNewEmployee_blank.
  - split.
    + intros (method & url & body & Hin).
      destruct (string_dec first "") as [Hf | Hf];
        [| destruct (string_dec last "") as [Hl | Hl]]; [| | tauto].
      * rewrite handleAddNewEmployee_blank in Hin by (left; exact Hf).
        simpl in Hin. destruct Hin as [Hin | []]. discriminate.
      * rewrite handleAddNewEmployee_blank in Hin by (right; exact Hl).
        simpl in Hin. destruct Hin as [Hin | []]. discriminate.
    + intros H. eauto.
  - exact Hsent.
Qed.

(** C6.  With both names filled in, a create-employee request that fails
    leaves the whole state of the modal as it was: the sub-form stays
    shown and the two names keep their text, and an error toast carrying
    the failure message is raised.  The names are emptied and the sub-form
    hidden only when the request, and the refresh of the employee list
    after it, succeed. *)
Theorem failed_create_keeps_sub_form :
  forall (s : Full.State) (post invalidate : Outcome),
    isOpen (Full.props s) = true ->
    Full.showAddEmployee s = true ->
    NewEmployee.first_name (Full.newEmployee s) <> "" ->
    NewEmployee.last_name (Full.newEmployee s) <> "" ->
    let after := Full.step toLowerCase (Full.ClickAddEmployee post invalidate) s in
    (forall message,
        post = Rejected message ->
        fst after = s
        /\ Full.showAddEmployee (fst after) = true
        /\ Full.newEmployee (fst after) = Full.newEmployee s
        /\ snd after =
           [apiRequest "POST" "/api/employees" (Full.newEmployee s);
            toast "Errore" ("Errore durante l'aggiunta: " ++ message) true])
    /\ (post = Resolved -> invalidate = Resolved ->
          Full.newEmployee (fst after) =
            {| NewEmployee.first_name := ""; NewEmployee.last_name := "" |}
          /\ Full.showAddEmployee (fst after) = false
          /\ Full.form (fst after) = Full.form s)
    /\ (fst after <> s -> post = Resolved /\ invalidate = Resolved).
Proof.
  intros s post invalidate Hopen Hshown Hfirst Hlast after.
  unfold after. rewrite step_ClickAddEmployee by assumption.
  rewrite handleAddNewEmployee_filled by assumption.
  split; [| split].
  - intros message ->. simpl. auto.
  - intros -> ->. simpl. auto.
  - destruct post; [destruct invalidate |]; simpl; intros Hne; auto; congruence.
Qed.

(* ------------------------------------------------------------------ *)
(** * Initial values and reset *)

Section Reset.

Lemma or_empty (v : option string) : JS.or v "" = shown_text v.
Proof.
  destruct v as [s |]; simpl; [| reflexivity].
  destruct (String.eqb s "") eqn:H; [| reflexivity].
  apply String.eqb_eq in H. now subst.
Qed.

Lemma or_status (s : Status) (d : string) : JS.or (Some (status_str s)) d = status_str s.
Proof. now destruct s. Qed.

Lemma or_payment (s : PaymentStatus) (d : string) :
  JS.or (Some (payment_str s)) d = payment_str s.
Proof. now destruct s. Qed.

Lemma defaultValues_target (target : option (Obj Apartment.t)) :
  Full.defaultValues target = target_values target.
Proof.
  destruct target as [[a b] |]; [| reflexivity].
  unfold Full.defaultValues, target_values, values_of.
  cbn [JS.chain JS.chain_nullable JS.or_array val].
  rewrite !or_empty, or_status, or_payment.
  reflexivity.
Qed.

Lemma full_reset_target (target : option (Obj Apartment.t)) (s : Full.State) :
  Full.form (Full.resetEffect true target s) = target_values target.
Proof.
  rewrite <- defaultValues_target. reflexivity.
Qed.

Lemma basic_reset_target (target : option (Obj Apartment.t)) (s : Basic.State) :
  Basic.form (Basic.resetEffect true target s) = target_values target.
Proof.
  rewrite <- defaultValues_target. reflexivity.
Qed.

Lemma deps_changed_when (old new : Props) :
  isOpen new = true ->
  isOpen old = false \/ same_object (apartment old) (apartment new) = false ->
  deps_changed old new = true.
Proof.
  unfold deps_changed. intros Hnew [Hold | Hobj].
  - now rewrite Hold, Hnew.
  - rewrite Hobj. apply orb_true_r.
Qed.

End Reset.

(** C2.  When the modal is rendered open on a target that is another
    apartment object than the one of the previous render, or is rendered
    open after having been closed, or is mounted open, every field of the
    form holds the value of the new target: name, cleaning date, start and
    end time, status, payment status, notes and the ids of its employees,
    a missing optional text being shown as the empty text.  Nothing of the
    state before the render enters the result.  Without a target the
    fields hold the create-mode values. *)
Theorem reset_shows_target :
  forall (sF : Full.State) (sB : Basic.State) (p : Props),
    isOpen p = true ->
    isOpen (Full.props sF) = false
    \/ same_object (apartment (Full.props sF)) (apartment p) = false ->
    isOpen (Basic.props sB) = false
    \/ same_object (apartment (Basic.props sB)) (apartment p) = false ->
    Full.form (fst (Full.step toLowerCase (Full.Common (Render p)) sF)) = target_values (apartment p)
    /\ Basic.form (fst (Basic.step (Render p) sB)) = target_values (apartment p)
    /\ Full.form (Full.mount p) = target_values (apartment p)
    /\ Basic.form (Basic.mount p) = target_values (apartment p)
    /\ target_values None = create_defaults.
Proof.
  intros sF sB p Hopen HF HB.
  repeat split.
  - simpl. unfold Full.render.
    rewrite (deps_changed_when _ _ Hopen HF), Hopen. apply full_reset_target.
  - simpl. unfold Basic.render.
    rewrite (deps_changed_when _ _ Hopen HB), Hopen. apply basic_reset_target.
  - unfold Full.mount. rewrite Hopen. apply full_reset_target.
  - unfold Basic.mount. rewrite Hopen. apply basic_reset_target.
Qed.

(** C10.  Without an apartment, the initial values and the values after a
    reset are, in both variants: empty name, cleaning date, start time, end
    time and notes, status "Da Fare", payment status "Da Pagare", and no
    employee id.  With an apartment, a start time, end time or notes that
    is missing becomes the empty text, never a missing value. *)
Theorem create_defaults_and_coercion :
  Full.defaultValues None = create_defaults
  /\ Basic.defaultValues None = create_defaults
  /\ (forall s, Full.form (Full.resetEffect true None s) = create_defaults)
  /\ (forall s, Basic.form (Basic.resetEffect true None s) = create_defaults)
  /\ (forall (a : Obj Apartment.t) (sF : Full.State) (sB : Basic.State)
             (f : ApartmentFormData.t),
        f = Full.defaultValues (Some a) \/ f = Basic.defaultValues (Some a)
        \/ f = Full.form (Full.resetEffect true (Some a) sF)
        \/ f = Basic.form (Basic.resetEffect true (Some a) sB) ->
        ApartmentFormData.start_time f = Some (shown_text (Apartment.start_time (val a)))
        /\ ApartmentFormData.end_time f = Some (shown_text (Apartment.end_time (val a)))
        /\ ApartmentFormData.notes f = Some (shown_text (Apartment.notes (val a)))
        /\ (Apartment.start_time (val a) = None -> ApartmentFormData.start_time f = Some "")
        /\ (Apartment.end_time (val a) = None -> ApartmentFormData.end_time f = Some "")
        /\ (Apartment.notes (val a) = None -> ApartmentFormData.notes f = Some "")).
Proof.
  repeat (split; [reflexivity |]).
  intros a sF sB f Hf.
  assert (Heq : f = target_values (Some a)).
  { destruct Hf as [-> | [-> | [-> | ->]]].
    - apply defaultValues_target.
    - rewrite <- defaultValues_same. apply defaultValues_target.
    - apply full_reset_target.
    - apply basic_reset_target. }
  subst f. simpl.
  repeat split; intros ->; reflexivity.
Qed.

(* ------------------------------------------------------------------ *)
(** * Cards *)

(** A noun chosen by comparing a count with 1: the count is 1, or the
    comparison fails. *)
Ltac by_count :=
  first [ intros ->; reflexivity
        | let H := fresh "Hne" in intros H; apply Z.eqb_neq in H; now rewrite H ].

(** The cards are drawn exactly when every month key can be formatted. *)
Lemma monthlyData_formats (formatMonth : string -> option string)
    (items : list Statistics.Month) :
  (forall m, In m items -> formatMonth (Statistics.month_name m) <> None) ->
  exists bars, Statistics.monthlyData formatMonth items = Some bars.
Proof.
  induction items as [| item rest IH]; intros Hall; simpl.
  - now exists [].
  - destruct (formatMonth (Statistics.month_name item)) as [label |] eqn:Hitem.
    + destruct IH as [bars ->]; [intros m Hm; apply Hall; now right |]. eauto.
    + exfalso. apply (Hall item); [now left | exact Hitem].
Qed.

(** C8.  The busiest-day value is "N/A" when the date of the snapshot is
    "N/A", and the date as [formatDateForDisplay] renders it otherwise;
    whenever the page draws its cards, the busiest-day card shows that
    value, and the page draws its cards for every loaded snapshot whose
    month keys can all be formatted. *)
Theorem busiest_day_rendering :
  forall (formatDateForDisplay : string -> string) (formatMonth : string -> option string)
         (stats : Statistics.StatisticsData),
    let day := Statistics.date (Statistics.busiestDay stats) in
    let page := Statistics.Statistics formatDateForDisplay formatMonth (Some stats) false false in
    (day = "N/A" -> Statistics.formattedBusiestDay formatDateForDisplay stats = "N/A")
    /\ (day <> "N/A" ->
          Statistics.formattedBusiestDay formatDateForDisplay stats = formatDateForDisplay day)
    /\ (forall cards,
          page = Statistics.Loaded cards ->
          Statistics.busiestDayValue cards
          = Statistics.formattedBusiestDay formatDateForDisplay stats)
    /\ ((forall m, In m (Statistics.ordersByMonth stats) ->
                   formatMonth (Statistics.month_name m) <> None) ->
        exists cards, page = Statistics.Loaded cards).
Proof.
  intros fmt fmtMonth stats day page.
  split; [| split; [| split]].
  - unfold Statistics.formattedBusiestDay. fold day. intros ->. reflexivity.
  - unfold Statistics.formattedBusiestDay. fold day.
    intros Hne. apply String.eqb_neq in Hne. now rewrite Hne.
  - intros cards. unfold page, Statistics.Statistics. cbn [negb].
    destruct (Statistics.monthlyData fmtMonth (Statistics.ordersByMonth stats));
      [| discriminate].
    intros H. injection H as <-. reflexivity.
  - intros Hall. unfold page, Statistics.Statistics.
    destruct (monthlyData_formats fmtMonth (Statistics.ordersByMonth stats) Hall) as [bars ->].
    eauto.
Qed.

(** C9.  The employee card prints the singular noun when its count is
    exactly 1 and the plural noun for every other count; whenever the
    statistics page draws its cards, which it does for every loaded
    snapshot whose month keys can all be formatted, the top-employee card
    and the busiest-day card do the same with their counts. *)
Theorem singular_only_for_one :
  forall (formatDateForDisplay : string -> string) (formatMonth : string -> option string)
         (employee : EmployeeCard.EmployeeWithAssignedApartments)
         (stats : Statistics.StatisticsData),
    let card := EmployeeCard.EmployeeCard employee in
    let page := Statistics.Statistics formatDateForDisplay formatMonth (Some stats) false false in
    (EmployeeCard.count card = Z.of_nat (List.length (EmployeeCard.apartments employee))
     /\ (EmployeeCard.count card = 1%Z -> EmployeeCard.noun card = "ordine assegnato")
     /\ (EmployeeCard.count card <> 1%Z -> EmployeeCard.noun card = "ordini assegnati"))
    /\ (forall cards,
          page = Statistics.Loaded cards ->
          Statistics.topEmployeeCount cards = Statistics.count (Statistics.topEmployee stats)
          /\ Statistics.busiestDayCount cards = Statistics.day_count (Statistics.busiestDay stats)
          /\ (Statistics.topEmployeeCount cards = 1%Z -> Statistics.topEmployeeNoun cards = "ordine")
          /\ (Statistics.topEmployeeCount cards <> 1%Z -> Statistics.topEmployeeNoun cards = "ordini")
          /\ (Statistics.busiestDayCount cards = 1%Z -> Statistics.busiestDayNoun cards = "ordine")
          /\ (Statistics.busiestDayCount cards <> 1%Z ->
                Statistics.busiestDayNoun cards = "ordini"))
    /\ ((forall m, In m (Statistics.ordersByMonth stats) ->
                   formatMonth (Statistics.month_name m) <> None) ->
        exists cards, page = Statistics.Loaded cards).
Proof.
  intros fmt fmtMonth employee stats card page. split; [| split].
  - unfold card, EmployeeCard.EmployeeCard. simpl.
    split; [reflexivity | split; by_count].
  - intros cards. unfold page, Statistics.Statistics. cbn [negb].
    destruct (Statistics.monthlyData fmtMonth (Statistics.ordersByMonth stats));
      [| discriminate].
    intros H. injection H as <-. simpl.
    do 2 (split; [reflexivity |]). repeat split; by_count.
  - intros Hall. unfold page, Statistics.Statistics.
    destruct (monthlyData_formats fmtMonth (Statistics.ordersByMonth stats) Hall) as [bars ->].
    eauto.
Qed.

(* ------------------------------------------------------------------ *)
(** * Whole runs of the modal *)

Section Reachable.

(** The outcomes of one press of the add-employee button. *)
Lemma handleAddNewEmployee_outcomes (post invalidate : Outcome) (s : Full.State) :
  let failed message := toast "Errore" ("Errore durante l'aggiunta: " ++ message) true in
  let request := apiRequest "POST" "/api/employees" (Full.newEmployee s) in
  exec (Full.handleAddNewEmployee post invalidate) s
    = (s, [toast "Errore" "Nome e cognome sono obbligatori." true])
  \/ (exists message, post = Rejected message
        /\ exec (Full.handleAddNewEmployee post invalidate) s = (s, [request; failed message]))
  \/ (exists message, post = Resolved /\ invalidate = Rejected message
        /\ exec (Full.handleAddNewEmployee post invalidate) s
           = (s, [request; invalidateQueries "/api/employees"; failed message]))
  \/ (post = Resolved /\ invalidate = Resolved
      /\ exec (Full.handleAddNewEmployee post invalidate) s
         = (Full.setShowAddEmployee false
              (Full.setNewEmployee
                 {| NewEmployee.first_name := ""; NewEmployee.last_name := "" |} s),
            [request; invalidateQueries "/api/employees";
             toast "Successo" "Dipendente aggiunto con successo." false])).
Proof.
  intros failed request.
  destruct (string_dec (NewEmployee.first_name (Full.newEmployee s)) "") as [Hf | Hf].
  { left. apply handleAddNewEmployee_blank. now left. }
  destruct (string_dec (NewEmployee.last_name (Full.newEmployee s)) "") as [Hl | Hl].
  { left. apply handleAddNewEmployee_blank. now right. }
  right. rewrite handleAddNewEmployee_filled by assumption.
  destruct post as [| m]; [destruct invalidate as [| m] |].
  - right. right. auto.
  - right. left. exists m. auto.
  - left. exists m. auto.
Qed.

(** The add-employee button touches neither the form nor the search box
    nor the props, and calls no callback prop. *)
Lemma handleAddNewEmployee_frame (post invalidate : Outcome) (s : Full.State) :
  Full.form (fst (exec (Full.handleAddNewEmployee post invalidate) s)) = Full.form s
  /\ Full.props (fst (exec (Full.handleAddNewEmployee post invalidate) s)) = Full.props s
  /\ Full.employeeSearch (fst (exec (Full.handleAddNewEmployee post invalidate) s))
     = Full.employeeSearch s
  /\ callbacks (snd (exec (Full.handleAddNewEmployee post invalidate) s)) = [].
Proof.
  destruct (handleAddNewEmployee_outcomes post invalidate s)
    as [H | [(m & _ & H) | [(m & _ & _ & H) | (_ & _ & H)]]];
    rewrite H; simpl; auto.
Qed.

(** An event of the search box or of the sub-form leaves the form and the
    props alone and calls no callback prop. *)
Lemma full_step_own_frame (e : Full.FullEvent) (s : Full.State) :
  (forall c, e <> Full.Common c) ->
  Full.form (fst (Full.step toLowerCase e s)) = Full.form s
  /\ Full.props (fst (Full.step toLowerCase e s)) = Full.props s
  /\ callbacks (snd (Full.step toLowerCase e s)) = []
  /\ (no_search e -> Full.employeeSearch (fst (Full.step toLowerCase e s)) = Full.employeeSearch s).
Proof.
  intros Hown.
  destruct e as [c | v | | v | v | post invalidate];
    [now contradiction (Hown c) | | | | |];
    cbn [Full.step]; destruct (isOpen (Full.props s)); simpl; auto;
    try (repeat split; auto; intros []; fail);
    destruct (Full.showAddEmployee s); simpl; auto.
  destruct (handleAddNewEmployee_frame post invalidate s) as (Hf & Hp & Hs & Hc).
  auto.
Qed.

Lemma settled_target (target : option (Obj Apartment.t)) :
  settled (target_values target).
Proof.
  destruct target as [[a b] |]; unfold settled; simpl.
  - repeat split; eauto.
  - repeat split; eauto; [now exists DaFare | now exists DaPagare].
Qed.

Lemma valid_when_settled (f : ApartmentFormData.t) :
  settled f ->
  (valid_apartment_form f
   <-> ApartmentFormData.name f <> "" /\ ApartmentFormData.cleaning_date f <> "").
Proof.
  intros ([s Hs] & [p Hp] & _). unfold valid_apartment_form. rewrite Hs, Hp.
  split; [tauto |]. intros [Hn Hd]. repeat split; auto.
  - destruct s; simpl; auto.
  - destruct p; simpl; auto.
Qed.

(** Every event of the full modal keeps the form settled. *)
Lemma full_step_settled (e : Full.FullEvent) (s : Full.State) :
  settled (Full.form s) -> settled (Full.form (fst (Full.step toLowerCase e s))).
Proof.
  intros Hs.
  destruct e as [c | v | | v | v | post invalidate].
  2-6: match goal with
       | |- settled (Full.form (fst (Full.step toLowerCase ?e ?s0))) =>
           rewrite (proj1 (@full_step_own_frame e s0 ltac:(discriminate))); exact Hs
       end.
  destruct c; cbn [Full.step Full.step_common];
    try (destruct (isOpen (Full.props s)); simpl; auto;
         destruct Hs as (H1 & H2 & H3 & H4 & H5); unfold settled; simpl;
         repeat split; eauto; fail).
  - (* Render *)
    cbn [fst]. unfold Full.render.
    destruct (deps_changed (Full.props s) p); [| exact Hs].
    destruct (isOpen p) eqn:Hopen; [| exact Hs].
    rewrite full_reset_target. apply settled_target.
  - (* ClickCheckbox *)
    destruct (isOpen (Full.props s)); simpl; auto.
    destruct (nth_error _ i); simpl; auto.
Qed.

(** Only a submission of valid values reaches [onSubmit], and it carries
    the values of the form. *)
Lemma full_step_submission (e : Full.FullEvent) (s : Full.State) (data : ApartmentFormData.t) :
  In (onSubmit data) (snd (Full.step toLowerCase e s)) ->
  data = Full.form s /\ valid_apartment_form data.
Proof.
  intros Hin.
  destruct e as [c | v | | v | v | post invalidate].
  2-6: match type of Hin with
       | In _ (snd (Full.step toLowerCase ?e ?s0)) =>
           assert (Hc : In (onSubmit data) (callbacks (snd (Full.step toLowerCase e s0))))
             by (apply filter_In; auto);
           rewrite (proj1 (proj2 (proj2 (@full_step_own_frame e s0 ltac:(discriminate))))) in Hc;
           contradiction
       end.
  destruct c; cbn [Full.step Full.step_common] in Hin;
    try (destruct (isOpen (Full.props s)); simpl in Hin;
         try destruct (nth_error _ _); simpl in Hin; intuition discriminate).
  destruct (isOpen (Full.props s)); simpl in Hin; [| contradiction].
  destruct (valid_apartment_form_dec (Full.form s)) as [Hv | Hv].
  - rewrite (handleSubmit_valid Hv) in Hin. destruct Hin as [Heq | []].
    injection Heq as <-. auto.
  - rewrite (handleSubmit_invalid Hv) in Hin. contradiction.
Qed.

Lemma full_run_settled (es : list Full.FullEvent) :
  forall s : Full.State,
    settled (Full.form s) ->
    settled (Full.form (fst (Full.run toLowerCase es s)))
    /\ forall data, In (onSubmit data) (snd (Full.run toLowerCase es s)) ->
                    valid_apartment_form data /\ settled data.
Proof.
  induction es as [| e es IH]; intros s Hs.
  - simpl. split; [assumption | intros data []].
  - pose proof (full_step_settled e s Hs) as Hs1.
    pose proof (full_step_submission e s) as Hsub.
    cbn [Full.run]. destruct (Full.step toLowerCase e s) as [s1 out1]. simpl in Hs1, Hsub.
    destruct (IH s1 Hs1) as [IHs IHout].
    destruct (Full.run toLowerCase es s1) as [s2 out2]. simpl in *.
    split; [assumption |].
    intros data Hin. apply in_app_or in Hin. destruct Hin as [Hin | Hin].
    + destruct (Hsub data Hin) as [-> Hv]. auto.
    + auto.
Qed.

Lemma full_mount_settled (p : Props) : settled (Full.form (Full.mount p)).
Proof.
  unfold Full.mount. destruct (isOpen p).
  - rewrite full_reset_target. apply settled_target.
  - simpl. rewrite defaultValues_target. apply settled_target.
Qed.

End Reachable.

(** X1.  In every state either modal can reach from its mount, the status
    and the payment status of the form are values of their enumerations and
    start time, end time and notes are present texts; every [onSubmit] call
    of a run carries values that pass validation and have that shape. *)
Theorem submissions_are_settled :
  forall (p : Props) (esF : list Full.FullEvent) (esB : list Event),
    (settled (Full.form (fst (Full.run toLowerCase esF (Full.mount p))))
     /\ forall data, In (onSubmit data) (snd (Full.run toLowerCase esF (Full.mount p))) ->
                     valid_apartment_form data /\ settled data)
    /\ (settled (Basic.form (fst (Basic.run esB (Basic.mount p))))
        /\ forall data, In (onSubmit data) (snd (Basic.run esB (Basic.mount p))) ->
                        valid_apartment_form data /\ settled data).
Proof.
  intros p esF esB. split.
  - apply full_run_settled, full_mount_settled.
  - destruct (mount_same p) as (Hf & Hp & Hs).
    destruct (run_same esB _ _ Hf Hp Hs) as [Hout Hform].
    rewrite <- Hout, <- Hform.
    apply full_run_settled, full_mount_settled.
Qed.

(** X2.  In a reachable state of an open modal the two enumerated fields
    cannot fail validation: pressing the submit button calls [onSubmit]
    with the form exactly when the name and the cleaning date are both
    non-empty, and calls nothing when one of them is empty. *)
Theorem reachable_submit_needs_name_and_date :
  forall (p : Props) (esF : list Full.FullEvent) (esB : list Event),
    let sF := fst (Full.run toLowerCase esF (Full.mount p)) in
    let sB := fst (Basic.run esB (Basic.mount p)) in
    (isOpen (Full.props sF) = true ->
       (snd (Full.step toLowerCase (Full.Common Submit) sF) = [onSubmit (Full.form sF)]
        <-> ApartmentFormData.name (Full.form sF) <> ""
            /\ ApartmentFormData.cleaning_date (Full.form sF) <> "")
       /\ (snd (Full.step toLowerCase (Full.Common Submit) sF) = []
           <-> ApartmentFormData.name (Full.form sF) = ""
               \/ ApartmentFormData.cleaning_date (Full.form sF) = ""))
    /\ (isOpen (Basic.props sB) = true ->
          (snd (Basic.step Submit sB) = [onSubmit (Basic.form sB)]
           <-> ApartmentFormData.name (Basic.form sB) <> ""
               /\ ApartmentFormData.cleaning_date (Basic.form sB) <> "")
          /\ (snd (Basic.step Submit sB) = []
              <-> ApartmentFormData.name (Basic.form sB) = ""
                  \/ ApartmentFormData.cleaning_date (Basic.form sB) = "")).
Proof.
  intros p esF esB sF sB.
  assert (Hkey : forall f, settled f ->
            (handleSubmit Full.formSchema f = [onSubmit f]
             <-> ApartmentFormData.name f <> "" /\ ApartmentFormData.cleaning_date f <> "")
            /\ (handleSubmit Full.formSchema f = []
                <-> ApartmentFormData.name f = "" \/ ApartmentFormData.cleaning_date f = "")).
  { intros f Hs. pose proof (valid_when_settled Hs) as Hv.
    destruct (valid_apartment_form_dec f) as [Hok | Hbad].
    - rewrite (handleSubmit_valid Hok). apply Hv in Hok.
      split; split; intros; try tauto; try discriminate; try reflexivity.
    - rewrite (handleSubmit_invalid Hbad).
      split; split; intros; try tauto; try discriminate; try reflexivity.
      all: destruct (string_dec (ApartmentFormData.name f) ""); [tauto |].
      all: destruct (string_dec (ApartmentFormData.cleaning_date f) ""); tauto. }
  split; intros Hopen.
  - cbn [Full.step Full.step_common]. rewrite Hopen. simpl.
    apply Hkey. apply full_run_settled, full_mount_settled.
  - cbn [Basic.step]. rewrite Hopen. simpl.
    apply Hkey. unfold sB.
    destruct (mount_same p) as (Hf & Hp & Hs).
    destruct (run_same esB _ _ Hf Hp Hs) as [_ Hform].
    rewrite <- Hform. apply full_run_settled, full_mount_settled.
Qed.

(* ------------------------------------------------------------------ *)
(** * Distinct ids along a run *)

Section Distinct.

Lemma target_ids_distinct (target : option (Obj Apartment.t)) :
  distinct_ids target ->
  NoDup (ApartmentFormData.employee_ids (target_values target)).
Proof.
  destruct target as [[a b] |]; simpl; [auto | intros _; constructor].
Qed.

Lemma full_mount_distinct (p : Props) :
  distinct_ids (apartment p) ->
  NoDup (ApartmentFormData.employee_ids (Full.form (Full.mount p))).
Proof.
  intros Hd. unfold Full.mount. destruct (isOpen p).
  - rewrite full_reset_target. now apply target_ids_distinct.
  - change (NoDup (ApartmentFormData.employee_ids (Full.defaultValues (apartment p)))).
    rewrite defaultValues_target. now apply target_ids_distinct.
Qed.

Lemma full_step_distinct (e : Full.FullEvent) (s : Full.State) :
  NoDup (ApartmentFormData.employee_ids (Full.form s)) ->
  full_renders_distinct e ->
  NoDup (ApartmentFormData.employee_ids (Full.form (fst (Full.step toLowerCase e s)))).
Proof.
  intros Hnd He.
  destruct e as [c | v | | v | v | post invalidate].
  2-6: match goal with
       | |- NoDup (_ (Full.form (fst (Full.step toLowerCase ?e ?s0)))) =>
           rewrite (proj1 (@full_step_own_frame e s0 ltac:(discriminate))); exact Hnd
       end.
  destruct c; cbn [Full.step Full.step_common];
    try (destruct (isOpen (Full.props s)); simpl; exact Hnd).
  - (* Render *)
    cbn [fst]. unfold Full.render.
    destruct (deps_changed (Full.props s) p); [| exact Hnd].
    destruct (isOpen p); [| exact Hnd].
    rewrite full_reset_target. now apply target_ids_distinct.
  - (* ClickCheckbox *)
    destruct (isOpen (Full.props s)); simpl; [| exact Hnd].
    destruct (nth_error _ i) as [employee |]; simpl; [| exact Hnd].
    now apply (NoDup_full_click employee).
Qed.

Lemma full_run_distinct (es : list Full.FullEvent) :
  forall s : Full.State,
    NoDup (ApartmentFormData.employee_ids (Full.form s)) ->
    Forall full_renders_distinct es ->
    NoDup (ApartmentFormData.employee_ids (Full.form (fst (Full.run toLowerCase es s)))).
Proof.
  induction es as [| e es IH]; intros s Hnd Hes.
  - exact Hnd.
  - inversion Hes as [| e' es' He Hrest]; subst.
    rewrite full_fst_run_cons. apply IH; [| assumption].
    now apply full_step_distinct.
Qed.

End Distinct.

(** X3.  When the apartment of the mount and the apartment of every later
    render have assigned employees with pairwise distinct ids, the
    [employee_ids] of the form never holds an id twice, whatever the user
    types, clicks, searches or submits in between, in both variants. *)
Theorem employee_ids_never_repeat :
  forall (p : Props) (esF : list Full.FullEvent) (esB : list Event),
    distinct_ids (apartment p) ->
    Forall full_renders_distinct esF ->
    Forall renders_distinct esB ->
    NoDup (ApartmentFormData.employee_ids (Full.form (fst (Full.run toLowerCase esF (Full.mount p)))))
    /\ NoDup (ApartmentFormData.employee_ids (Basic.form (fst (Basic.run esB (Basic.mount p))))).
Proof.
  intros p esF esB Hp HF HB. split.
  - apply full_run_distinct; [now apply full_mount_distinct | assumption].
  - destruct (mount_same p) as (Hf & Hpr & Hs).
    destruct (run_same esB _ _ Hf Hpr Hs) as [_ Hform].
    rewrite <- Hform.
    apply full_run_distinct; [now apply full_mount_distinct |].
    apply Forall_map. exact HB.
Qed.

(* ------------------------------------------------------------------ *)
(** * The sub-form beside the form *)

Section SubForm.

Lemma callbacks_app (a b : list Effect) :
  callbacks (a ++ b) = (callbacks a ++ callbacks b)%list.
Proof. apply filter_app. Qed.

(** The basic modal performs nothing but calls of its callback props. *)
Lemma basic_step_callbacks (e : Event) (s : Basic.State) :
  callbacks (snd (Basic.step e s)) = snd (Basic.step e s).
Proof.
  destruct e; cbn [Basic.step]; try reflexivity;
    destruct (isOpen (Basic.props s)); simpl; try reflexivity.
  - destruct (nth_error _ i); reflexivity.
  - unfold handleSubmit. destruct (Basic.formSchema (Basic.form s)); reflexivity.
Qed.

Lemma run_beside_sub_form (es : list Full.FullEvent) :
  forall (sF : Full.State) (sB : Basic.State),
    Forall no_search es ->
    Full.form sF = Basic.form sB ->
    Full.props sF = Basic.props sB ->
    Full.employeeSearch sF = "" ->
    callbacks (snd (Full.run toLowerCase es sF)) = snd (Basic.run (common_events es) sB)
    /\ Full.form (fst (Full.run toLowerCase es sF)) = Basic.form (fst (Basic.run (common_events es) sB)).
Proof.
  induction es as [| e es IH]; intros sF sB Hes Hform Hprops Hsearch.
  - simpl. auto.
  - inversion Hes as [| e' es' He Hrest]; subst.
    destruct e as [c | v | | v | v | post invalidate].
    + (* a common event: both modals step *)
      destruct (step_same c sF sB Hform Hprops Hsearch) as (Hout & Hf & Hp & Hs).
      pose proof (basic_step_callbacks c sB) as Hcb.
      specialize (IH _ _ Hrest Hf Hp Hs).
      cbn [common_events flat_map app Full.run Basic.run].
      fold (common_events es).
      destruct (Full.step toLowerCase (Full.Common c) sF) as [sF1 outF1].
      destruct (Basic.step c sB) as [sB1 outB1].
      simpl in *.
      destruct (Full.run toLowerCase es sF1) as [sF2 outF2].
      destruct (Basic.run (common_events es) sB1) as [sB2 outB2].
      simpl in *. destruct IH as [IHout IHform].
      rewrite callbacks_app, Hout, Hcb, IHout. auto.
    + contradiction.
    + destruct (@full_step_own_frame Full.ClickAddToggle sF ltac:(discriminate))
        as (Hf & Hp & Hc & Hs).
      specialize (IH (fst (Full.step toLowerCase Full.ClickAddToggle sF)) sB Hrest).
      rewrite Hf, Hp, (Hs I) in IH. specialize (IH Hform Hprops Hsearch).
      cbn [common_events flat_map app Full.run]. fold (common_events es).
      destruct (Full.step toLowerCase Full.ClickAddToggle sF) as [sF1 outF1]. simpl in *.
      destruct (Full.run toLowerCase es sF1) as [sF2 outF2]. simpl in *.
      rewrite callbacks_app, Hc. exact IH.
    + destruct (@full_step_own_frame (Full.ChangeNewFirstName v) sF ltac:(discriminate))
        as (Hf & Hp & Hc & Hs).
      specialize (IH (fst (Full.step toLowerCase (Full.ChangeNewFirstName v) sF)) sB Hrest).
      rewrite Hf, Hp, (Hs I) in IH. specialize (IH Hform Hprops Hsearch).
      cbn [common_events flat_map app Full.run]. fold (common_events es).
      destruct (Full.step toLowerCase (Full.ChangeNewFirstName v) sF) as [sF1 outF1]. simpl in *.
      destruct (Full.run toLowerCase es sF1) as [sF2 outF2]. simpl in *.
      rewrite callbacks_app, Hc. exact IH.
    + destruct (@full_step_own_frame (Full.ChangeNewLastName v) sF ltac:(discriminate))
        as (Hf & Hp & Hc & Hs).
      specialize (IH (fst (Full.step toLowerCase (Full.ChangeNewLastName v) sF)) sB Hrest).
      rewrite Hf, Hp, (Hs I) in IH. specialize (IH Hform Hprops Hsearch).
      cbn [common_events flat_map app Full.run]. fold (common_events es).
      destruct (Full.step toLowerCase (Full.ChangeNewLastName v) sF) as [sF1 outF1]. simpl in *.
      destruct (Full.run toLowerCase es sF1) as [sF2 outF2]. simpl in *.
      rewrite callbacks_app, Hc. exact IH.
    + destruct (@full_step_own_frame (Full.ClickAddEmployee post invalidate) sF
                  ltac:(discriminate)) as (Hf & Hp & Hc & Hs).
      specialize (IH (fst (Full.step toLowerCase (Full.ClickAddEmployee post invalidate) sF)) sB Hrest).
      rewrite Hf, Hp, (Hs I) in IH. specialize (IH Hform Hprops Hsearch).
      cbn [common_events flat_map app Full.run]. fold (common_events es).
      destruct (Full.step toLowerCase (Full.ClickAddEmployee post invalidate) sF) as [sF1 outF1].
      simpl in *.
      destruct (Full.run toLowerCase es sF1) as [sF2 outF2]. simpl in *.
      rewrite callbacks_app, Hc. exact IH.
Qed.

Lemma full_step_keeps_names (e : Full.FullEvent) (s : Full.State) :
  keeps_names e -> Full.newEmployee (fst (Full.step toLowerCase e s)) = Full.newEmployee s.
Proof.
  intros He.
  destruct e as [c | v | | v | v | post invalidate]; try contradiction.
  - destruct c; cbn [Full.step Full.step_common];
      try (destruct (isOpen (Full.props s)); simpl; reflexivity).
    + cbn [fst]. unfold Full.render.
      destruct (deps_changed (Full.props s) p); [| reflexivity].
      destruct (isOpen p); reflexivity.
    + destruct (isOpen (Full.props s)); simpl; [| reflexivity].
      destruct (nth_error _ i); reflexivity.
  - cbn [Full.step]. destruct (isOpen (Full.props s)); reflexivity.
  - cbn [Full.step]. destruct (isOpen (Full.props s)); reflexivity.
Qed.

End SubForm.

(** X4.  The search box apart, the extra controls of the full modal never
    reach the apartment form: for any sequence of events that leaves the
    search box alone, including typing in the sub-form and pressing its
    button with any outcome, the full modal ends with the same form values
    and makes the same [onSubmit] and [onClose] calls as the basic modal
    driven by the common events of that sequence. *)
Theorem sub_form_never_touches_form :
  forall (p : Props) (es : list Full.FullEvent),
    Forall no_search es ->
    callbacks (snd (Full.run toLowerCase es (Full.mount p)))
      = snd (Basic.run (common_events es) (Basic.mount p))
    /\ Full.form (fst (Full.run toLowerCase es (Full.mount p)))
       = Basic.form (fst (Basic.run (common_events es) (Basic.mount p))).
Proof.
  intros p es Hes. destruct (mount_same p) as (Hf & Hp & Hs).
  now apply run_beside_sub_form.
Qed.

(** X5.  The names typed in the new-employee sub-form are changed only by
    typing in them or by pressing the add button: hiding the sub-form,
    searching, editing or submitting the form, closing and reopening the
    modal and switching to another apartment all keep them. *)
Theorem typed_names_persist :
  forall (es : list Full.FullEvent) (s : Full.State),
    Forall keeps_names es ->
    Full.newEmployee (fst (Full.run toLowerCase es s)) = Full.newEmployee s.
Proof.
  induction es as [| e es IH]; intros s Hes.
  - reflexivity.
  - inversion Hes as [| e' es' He Hrest]; subst.
    rewrite full_fst_run_cons, IH by assumption.
    now apply full_step_keeps_names.
Qed.

(** X6.  Every press of the add-employee button ends with exactly one
    toast, sends at most one request, refreshes the employee list only
    after a request that succeeded, and shows the success toast exactly
    when both names are filled in and the request and the refresh both
    succeed. *)
Theorem add_button_always_answers :
  forall (s : Full.State) (post invalidate : Outcome),
    let out := snd (exec (Full.handleAddNewEmployee post invalidate) s) in
    (exists before title description destructive,
        out = (before ++ [toast title description destructive])%list
        /\ filter is_toast before = [])
    /\ (List.length (filter is_request out) <= 1)%nat
    /\ (forall key, In (invalidateQueries key) out ->
          post = Resolved
          /\ In (apiRequest "POST" "/api/employees" (Full.newEmployee s)) out)
    /\ ((exists title description, In (toast title description false) out)
        <-> NewEmployee.first_name (Full.newEmployee s) <> ""
            /\ NewEmployee.last_name (Full.newEmployee s) <> ""
            /\ post = Resolved /\ invalidate = Resolved).
Proof.
  intros s post invalidate out. unfold out.
  destruct (string_dec (NewEmployee.first_name (Full.newEmployee s)) "") as [Hf | Hf];
    [| destruct (string_dec (NewEmployee.last_name (Full.newEmployee s)) "") as [Hl | Hl]].
  1-2: rewrite handleAddNewEmployee_blank by tauto; simpl;
       (split; [exists []; simpl; eauto |]);
       (split; [lia |]);
       (split; [intros key [H | []]; discriminate |]);
       (split; [intros (t & d & [H | []]); discriminate | tauto]).
  rewrite handleAddNewEmployee_filled by assumption.
  destruct post as [| m]; [destruct invalidate as [| m] |]; simpl.
  - split; [exists [apiRequest "POST" "/api/employees" (Full.newEmployee s);
                    invalidateQueries "/api/employees"]; simpl; eauto |].
    split; [lia |]. split; [auto |]. split; [tauto | intros _].
    exists "Successo", "Dipendente aggiunto con successo.". auto.
  - split; [exists [apiRequest "POST" "/api/employees" (Full.newEmployee s);
                    invalidateQueries "/api/employees"]; simpl; eauto |].
    split; [lia |]. split; [auto |].
    split; [intros (t & d & [H | [H | [H | []]]]); discriminate | intros (_ & _ & _ & H)].
    discriminate.
  - split; [exists [apiRequest "POST" "/api/employees" (Full.newEmployee s)]; simpl; eauto |].
    split; [lia |].
    split; [intros key [H | [H | []]]; discriminate |].
    split; [intros (t & d & [H | [H | []]]); discriminate | intros (_ & _ & H & _)].
    discriminate.
Qed.

Section Refresh.

Lemma same_object_refl (a : option (Obj Apartment.t)) : same_object a a = true.
Proof. destruct a as [o |]; simpl; [apply Nat.eqb_refl | reflexivity]. Qed.

Lemma full_mount_props (p : Props) : Full.props (Full.mount p) = p.
Proof. unfold Full.mount. now destruct (isOpen p). Qed.

Lemma basic_mount_props (p : Props) : Basic.props (Basic.mount p) = p.
Proof. unfold Basic.mount. now destruct (isOpen p). Qed.

Lemma values_of_valid (b : Apartment.t) :
  Apartment.name b <> "" -> Apartment.cleaning_date b <> "" ->
  valid_apartment_form (values_of b).
Proof.
  intros Hn Hd.
  apply (valid_when_settled (settled_target (Some {| addr := 0; val := b |}))).
  simpl. auto.
Qed.

Lemma full_run_single (e : Full.FullEvent) (s : Full.State) :
  snd (Full.run toLowerCase [e] s) = snd (Full.step toLowerCase e s).
Proof. cbn [Full.run]. destruct (Full.step toLowerCase e s). simpl. apply app_nil_r. Qed.

Lemma basic_run_single (e : Event) (s : Basic.State) :
  snd (Basic.run [e] s) = snd (Basic.step e s).
Proof. cbn [Basic.run]. destruct (Basic.step e s). simpl. apply app_nil_r. Qed.

Lemma full_step_submit (s : Full.State) :
  isOpen (Full.props s) = true ->
  snd (Full.step toLowerCase (Full.Common Submit) s) = handleSubmit Full.formSchema (Full.form s).
Proof. intros H. cbn [Full.step Full.step_common]. now rewrite H. Qed.

Lemma basic_step_submit (s : Basic.State) :
  isOpen (Basic.props s) = true ->
  snd (Basic.step Submit s) = handleSubmit Full.formSchema (Basic.form s).
Proof. intros H. cbn [Basic.step]. now rewrite H. Qed.

Lemma full_mount_open (p : Props) :
  isOpen p = true -> Full.form (Full.mount p) = target_values (apartment p).
Proof. intros H. unfold Full.mount. rewrite H. apply full_reset_target. Qed.

Lemma basic_mount_open (p : Props) :
  isOpen p = true -> Basic.form (Basic.mount p) = target_values (apartment p).
Proof. intros H. unfold Basic.mount. rewrite H. apply basic_reset_target. Qed.

End Refresh.

(** X7.  After an employee was created from the sub-form, the render that
    brings the refreshed employee list (same apartment object, modal still
    open) does not run the reset: the apartment form and the search text
    are exactly as the user left them, the sub-form is hidden with empty
    names, and the modal now holds the refreshed list. *)
Theorem refresh_after_create_keeps_form :
  forall (s : Full.State) (refreshed : list Employee.t),
    isOpen (Full.props s) = true ->
    Full.showAddEmployee s = true ->
    NewEmployee.first_name (Full.newEmployee s) <> "" ->
    NewEmployee.last_name (Full.newEmployee s) <> "" ->
    let p :=
      {| isOpen := true; apartment := apartment (Full.props s); employees := refreshed |} in
    let after :=
      Full.run toLowerCase [Full.ClickAddEmployee Resolved Resolved; Full.Common (Render p)] s in
    Full.form (fst after) = Full.form s
    /\ Full.employeeSearch (fst after) = Full.employeeSearch s
    /\ Full.showAddEmployee (fst after) = false
    /\ Full.newEmployee (fst after)
       = {| NewEmployee.first_name := ""; NewEmployee.last_name := "" |}
    /\ Full.props (fst after) = p
    /\ snd after
       = [apiRequest "POST" "/api/employees" (Full.newEmployee s);
          invalidateQueries "/api/employees";
          toast "Successo" "Dipendente aggiunto con successo." false].
Proof.
  intros s refreshed Hopen Hshown Hf Hl p after. unfold after.
  cbn [Full.run]. rewrite step_ClickAddEmployee by assumption.
  rewrite (handleAddNewEmployee_filled Resolved Resolved s Hf Hl).
  cbn [Full.step Full.step_common]. unfold Full.render, deps_changed.
  cbn [Full.props Full.set_props Full.setShowAddEmployee Full.setNewEmployee isOpen apartment p].
  rewrite Hopen, same_object_refl. simpl. repeat split; reflexivity.
Qed.

(** X8.  Opening either modal on an apartment whose name and cleaning date
    are non-empty and saving at once hands [onSubmit] the apartment's own
    values (a missing optional text as the empty text); a modal opened
    without an apartment and submitted at once calls nothing. *)
Theorem open_and_save_round_trip :
  forall (a : Obj Apartment.t) (shown : list Employee.t),
    Apartment.name (val a) <> "" ->
    Apartment.cleaning_date (val a) <> "" ->
    let edit := {| isOpen := true; apartment := Some a; employees := shown |} in
    let create := {| isOpen := true; apartment := None; employees := shown |} in
    snd (Full.run toLowerCase [Full.Common Submit] (Full.mount edit)) = [onSubmit (values_of (val a))]
    /\ snd (Basic.run [Submit] (Basic.mount edit)) = [onSubmit (values_of (val a))]
    /\ snd (Full.run toLowerCase [Full.Common Submit] (Full.mount create)) = []
    /\ snd (Basic.run [Submit] (Basic.mount create)) = [].
Proof.
  intros a shown Hn Hd edit create.
  assert (Hedit : handleSubmit Full.formSchema (target_values (Some a))
                  = [onSubmit (values_of (val a))]).
  { apply handleSubmit_valid. now apply values_of_valid. }
  assert (Hcreate : handleSubmit Full.formSchema (target_values None) = []).
  { reflexivity. }
  split; [| split; [| split]].
  - rewrite full_run_single, full_step_submit by (now rewrite full_mount_props).
    rewrite full_mount_open by reflexivity. exact Hedit.
  - rewrite basic_run_single, basic_step_submit by (now rewrite basic_mount_props).
    rewrite basic_mount_open by reflexivity. exact Hedit.
  - rewrite full_run_single, full_step_submit by (now rewrite full_mount_props).
    rewrite full_mount_open by reflexivity. exact Hcreate.
  - rewrite basic_run_single, basic_step_submit by (now rewrite basic_mount_props).
    rewrite basic_mount_open by reflexivity. exact Hcreate.
Qed.

(* ------------------------------------------------------------------ *)
(** * Refining a search and clicking a row *)

Section Rows.

(** A text that contains a longer search also contains each part of it. *)
Lemma includes_part (text before part after : string) :
  JS.includes text (AsciiText.lower_text (before ++ part ++ after)) = true ->
  JS.includes text (AsciiText.lower_text part) = true.
Proof.
  rewrite !includes_iff, !toLowerCase_app. intros (x & y & ->).
  exists (x ++ AsciiText.lower_text before), (AsciiText.lower_text after ++ y).
  clear. induction x as [| c x IH]; simpl.
  - induction (AsciiText.lower_text before) as [| c b IHb]; simpl.
    + induction (AsciiText.lower_text part) as [| c q IHq]; simpl.
      * reflexivity.
      * now rewrite IHq.
    + now rewrite IHb.
  - now rewrite IH.
Qed.

Lemma filter_within_in {A} (f g : A -> bool) (l : list A) :
  (forall x, In x l -> f x = true -> g x = true) ->
  filter f (filter g l) = filter f l.
Proof.
  induction l as [| x l IH]; intros Hfg; simpl; [reflexivity |].
  assert (IH' : filter f (filter g l) = filter f l).
  { apply IH. intros y Hy. apply Hfg. now right. }
  destruct (g x) eqn:Hg; simpl.
  - now rewrite IH'.
  - destruct (f x) eqn:Hf; [| exact IH'].
    apply Hfg in Hf; [congruence | now left].
Qed.

Lemma array_includes_full_click (v : list Z) (e : Employee.t) (x : Z) :
  JS.array_includes (full_click v e) x =
  if Z.eqb x (Employee.id e) then negb (JS.array_includes v x) else JS.array_includes v x.
Proof.
  destruct (Z.eqb x (Employee.id e)) eqn:Hx.
  - apply Z.eqb_eq in Hx. subst x.
    pose proof (in_full_click_same v e) as H.
    rewrite <- !array_includes_In in H.
    destruct (JS.array_includes (full_click v e) (Employee.id e)),
             (JS.array_includes v (Employee.id e)); simpl; intuition congruence.
  - apply Z.eqb_neq in Hx.
    pose proof (in_full_click_other v e Hx) as H.
    rewrite <- !array_includes_In in H.
    destruct (JS.array_includes (full_click v e) x), (JS.array_includes v x);
      intuition congruence.
Qed.

End Rows.

(** X9.  For ASCII names and ASCII search texts, on which [toLowerCase]
    lowers letter by letter, extending the search text, in front or
    behind, can only remove rows from the checklist, and searching the
    extended text within the rows already shown gives the same rows as
    searching it in the whole list. *)
Theorem longer_search_narrows :
  forall (shown : list Employee.t) (before search after : string),
    lowers_ascii toLowerCase ->
    Forall (fun e => AsciiText.is_ascii (display_name e) = true) shown ->
    AsciiText.is_ascii (before ++ search ++ after) = true ->
    incl (Full.filteredEmployees toLowerCase shown (before ++ search ++ after))
         (Full.filteredEmployees toLowerCase shown search)
    /\ Full.filteredEmployees toLowerCase (Full.filteredEmployees toLowerCase shown search)
         (before ++ search ++ after)
       = Full.filteredEmployees toLowerCase shown (before ++ search ++ after).
Proof.
  intros shown before search after Hascii Hnames Hbig.
  assert (Hsearch : AsciiText.is_ascii search = true).
  { rewrite !is_ascii_app, !andb_true_iff in Hbig. tauto. }
  assert (Hpart : forall e, In e shown ->
            JS.includes (toLowerCase (display_name e))
              (toLowerCase (before ++ search ++ after)) = true ->
            JS.includes (toLowerCase (display_name e)) (toLowerCase search) = true).
  { intros e He. rewrite Forall_forall in Hnames.
    rewrite (Hascii _ (Hnames e He)), (Hascii _ Hbig), (Hascii _ Hsearch).
    apply includes_part. }
  split.
  - intros e. rewrite !in_filteredEmployees. intros [Hin [Hempty | Hinc]].
    + apply append_empty in Hempty. destruct Hempty as [_ Hempty].
      apply append_empty in Hempty. tauto.
    + auto.
  - unfold Full.filteredEmployees at 1 3.
    destruct (JS.not_string (before ++ search ++ after)) eqn:Hnot.
    + unfold JS.not_string in Hnot. apply String.eqb_eq in Hnot.
      apply append_empty in Hnot. destruct Hnot as [_ Hnot].
      apply append_empty in Hnot. destruct Hnot as [-> _]. reflexivity.
    + unfold Full.filteredEmployees. destruct (JS.not_string search); [reflexivity |].
      apply filter_within_in. intros e He. apply (Hpart e He).
Qed.

(** X10.  A click on a row of the checklist of an open modal flips the box
    of every row showing the clicked employee's id and leaves every other
    box, every label and the order of the rows as they were, in both
    variants. *)
Theorem click_flips_only_that_box :
  forall (sF : Full.State) (sB : Basic.State) (i : nat) (employee : Employee.t),
    isOpen (Full.props sF) = true ->
    isOpen (Basic.props sB) = true ->
    nth_error (Full.filteredEmployees toLowerCase (employees (Full.props sF)) (Full.employeeSearch sF)) i
      = Some employee ->
    nth_error (employees (Basic.props sB)) i = Some employee ->
    let flipped (ids : list Z) (row : Employee.t) :=
      {| View.label := Employee.first_name row ++ " " ++ Employee.last_name row;
         View.checked :=
           if Z.eqb (Employee.id row) (Employee.id employee)
           then negb (JS.array_includes ids (Employee.id row))
           else JS.array_includes ids (Employee.id row) |} in
    View.full_checklist toLowerCase (fst (Full.step toLowerCase (Full.Common (ClickCheckbox i)) sF))
      = map (flipped (ApartmentFormData.employee_ids (Full.form sF)))
          (Full.filteredEmployees toLowerCase (employees (Full.props sF)) (Full.employeeSearch sF))
    /\ View.basic_checklist (fst (Basic.step (ClickCheckbox i) sB))
       = map (flipped (ApartmentFormData.employee_ids (Basic.form sB)))
           (employees (Basic.props sB)).
Proof.
  intros sF sB i employee HopenF HopenB HnthF HnthB flipped. split.
  - cbn [Full.step Full.step_common]. rewrite HopenF. cbn [negb]. rewrite HnthF.
    unfold View.full_checklist. simpl. apply map_ext. intros row.
    unfold flipped, Full.checked. f_equal.
    apply (array_includes_full_click
             (ApartmentFormData.employee_ids (Full.form sF)) employee (Employee.id row)).
  - cbn [Basic.step]. rewrite HopenB. cbn [negb]. rewrite HnthB.
    unfold View.basic_checklist. simpl. apply map_ext. intros row.
    unfold flipped, Basic.checked. f_equal.
    apply (array_includes_full_click
             (ApartmentFormData.employee_ids (Basic.form sB)) employee (Employee.id row)).
Qed.

(* ------------------------------------------------------------------ *)
(** * What the schema reports *)

Section Issues.

Lemma issues_of_result {A} (data : A) (issues : list Zod.Issue) :
  issues_of (Zod.result data issues) = issues.
Proof. now destruct issues. Qed.

Lemma string_min1_cases (p msg v : string) :
  (v <> "" /\ Zod.string_min1 p msg v = [])
  \/ (v = ""
      /\ Zod.string_min1 p msg v
         = [{| Zod.path := p; Zod.code := Zod.too_small; Zod.message := Some msg |}]).
Proof. destruct v; [right | left]; split; try reflexivity; discriminate. Qed.

Lemma enum_cases (options : list string) (p v : string) :
  (In v options /\ Zod.enum options p v = [])
  \/ (~ In v options
      /\ Zod.enum options p v
         = [{| Zod.path := p; Zod.code := Zod.invalid_enum_value; Zod.message := None |}]).
Proof.
  destruct (Zod.enum options p v) eqn:H.
  - left. split; [now apply (enum_nil options p) | reflexivity].
  - right. assert (Hn : ~ In v options).
    { intros Hin. apply (enum_nil options p) in Hin. congruence. }
    split; [exact Hn |]. unfold Zod.enum in *.
    destruct (existsb (String.eqb v) options); [discriminate | now symmetry].
Qed.

End Issues.

(** X11.  The issues of the apartment schema name exactly the failing
    fields: an empty name is reported at [name] with "Il nome è
    obbligatorio", an empty cleaning date at [cleaning_date] with "La data è
    obbligatoria", a status or payment status outside its enumeration at
    its own field, and nothing is ever reported at [start_time],
    [end_time], [notes] or [employee_ids]; both variants report the same
    issues. *)
Theorem schema_reports_failing_fields :
  forall v : ApartmentFormData.t,
    let issues := issues_of (Full.formSchema v) in
    let at_field p c m := {| Zod.path := p; Zod.code := c; Zod.message := m |} in
    (In (at_field "name" Zod.too_small (Some "Il nome è obbligatorio")) issues
     <-> ApartmentFormData.name v = "")
    /\ (In (at_field "cleaning_date" Zod.too_small (Some "La data è obbligatoria")) issues
        <-> ApartmentFormData.cleaning_date v = "")
    /\ (In (at_field "status" Zod.invalid_enum_value None) issues
        <-> ~ In (ApartmentFormData.status v) ["Da Fare"; "In Corso"; "Fatto"])
    /\ (In (at_field "payment_status" Zod.invalid_enum_value None) issues
        <-> ~ In (ApartmentFormData.payment_status v) ["Da Pagare"; "Pagato"])
    /\ (forall issue, In issue issues ->
          In (Zod.path issue) ["name"; "cleaning_date"; "status"; "payment_status"])
    /\ issues_of (Basic.formSchema v) = issues.
Proof.
  intros v issues at_field.
  assert (Hbasic : issues_of (Basic.formSchema v) = issues) by reflexivity.
  rewrite Hbasic. clear Hbasic.
  unfold issues, Full.formSchema.
  rewrite issues_of_result.
  unfold Zod.string_optional, Zod.array_number. cbn [app].
  destruct (string_min1_cases "name" "Il nome è obbligatorio" (ApartmentFormData.name v))
    as [[Hn ->] | [Hn ->]];
  destruct (string_min1_cases "cleaning_date" "La data è obbligatoria"
              (ApartmentFormData.cleaning_date v)) as [[Hd ->] | [Hd ->]];
  destruct (enum_cases ["Da Fare"; "In Corso"; "Fatto"] "status" (ApartmentFormData.status v))
    as [[Hs ->] | [Hs ->]];
  destruct (enum_cases ["Da Pagare"; "Pagato"] "payment_status"
              (ApartmentFormData.payment_status v)) as [[Hp ->] | [Hp ->]];
  unfold at_field; cbn [app In Zod.path];
  do 4 (split; [split; [intros H; repeat (destruct H as [H | H]; try discriminate H);
                        solve [assumption | contradiction]
                       | intros H; solve [contradiction | auto 6] ] |]);
  (split; [| reflexivity]);
  intros issue H; repeat (destruct H as [H | H]; [subst issue; simpl; auto 6 |]);
  contradiction.
Qed.

(* ------------------------------------------------------------------ *)
(** * The employee card and the charts *)

(** X12.  A click on the delete button of a card calls [onDelete] with the
    employee's id and the very name the card shows as its heading, stops
    the click there and so never reaches the card's [onClick]; a click
    anywhere else calls [onClick] when the card was given one and never
    [onDelete]. *)
Theorem delete_click_stays_on_button :
  forall (employee : EmployeeCard.EmployeeWithAssignedApartments) (hasOnClick : bool),
    CardClicks.click CardClicks.DeleteButton hasOnClick employee
      = [CardClicks.stopPropagation;
         CardClicks.onDelete (EmployeeCard.id employee)
           (EmployeeCard.heading (EmployeeCard.EmployeeCard employee))]
    /\ ~ In CardClicks.onClick (CardClicks.click CardClicks.DeleteButton hasOnClick employee)
    /\ (forall id name,
          ~ In (CardClicks.onDelete id name)
               (CardClicks.click CardClicks.Elsewhere hasOnClick employee))
    /\ CardClicks.click CardClicks.Elsewhere true employee = [CardClicks.onClick]
    /\ CardClicks.click CardClicks.Elsewhere false employee = [].
Proof.
  intros employee hasOnClick. repeat split.
  - simpl. intuition discriminate.
  - intros id name. destruct hasOnClick; simpl; intuition discriminate.
Qed.

(** X13.  The slices of the order-status pie get three pairwise different
    fills and the slices of the payment pie two different fills: within one
    pie no two statuses share a colour, and every status of either
    enumeration has a fill. *)
Theorem pie_slices_have_distinct_fills :
  (forall s : Status, Charts.fill (status_str s) <> None)
  /\ (forall p : PaymentStatus, Charts.fill (payment_str p) <> None)
  /\ (forall s1 s2 : Status,
        Charts.fill (status_str s1) = Charts.fill (status_str s2) -> s1 = s2)
  /\ (forall p1 p2 : PaymentStatus,
        Charts.fill (payment_str p1) = Charts.fill (payment_str p2) -> p1 = p2).
Proof.
  repeat split.
  - intros s. destruct s; discriminate.
  - intros p. destruct p; discriminate.
  - intros s1 s2. destruct s1, s2; intros H; try reflexivity; discriminate H.
  - intros p1 p2. destruct p1, p2; intros H; try reflexivity; discriminate H.
Qed.

(* ------------------------------------------------------------------ *)
(** * Closing and reopening *)

(** X15.  Closing the modal and opening it again, even on the very same
    apartment object, discards whatever was typed: after the two renders
    every field of the form holds the value of the target again (the
    create-mode values without a target), in both variants. *)
Theorem close_and_reopen_discards_edits :
  forall (sF : Full.State) (sB : Basic.State) (p : Props),
    isOpen p = true ->
    let closed := {| isOpen := false; apartment := apartment p; employees := employees p |} in
    Full.form (fst (Full.run toLowerCase [Full.Common (Render closed); Full.Common (Render p)] sF))
      = target_values (apartment p)
    /\ Basic.form (fst (Basic.run [Render closed; Render p] sB)) = target_values (apartment p).
Proof.
  intros sF sB p Hopen closed. split.
  - rewrite !full_fst_run_cons. cbn [Full.run fst Full.step Full.step_common].
    assert (Hprops : Full.props (Full.render closed sF) = closed).
    { unfold Full.render. destruct (deps_changed (Full.props sF) closed); reflexivity. }
    unfold Full.render at 1. rewrite Hprops.
    rewrite (@deps_changed_when closed p Hopen (or_introl eq_refl)), Hopen.
    apply full_reset_target.
  - rewrite !basic_fst_run_cons. cbn [Basic.run fst Basic.step].
    assert (Hprops : Basic.props (Basic.render closed sB) = closed).
    { unfold Basic.render. destruct (deps_changed (Basic.props sB) closed); reflexivity. }
    unfold Basic.render at 1. rewrite Hprops.
    rewrite (@deps_changed_when closed p Hopen (or_introl eq_refl)), Hopen.
    apply basic_reset_target.
Qed.

End Engine.

(* ------------------------------------------------------------------ *)
(** * The properties on sample data *)

Lemma employee_ids_reflect_checkboxes_witness :
  NoDup (map Employee.id (Apartment.employees casa_blu))
  /\ ApartmentFormData.employee_ids
       (Full.form
          (fst (Full.run sample_engine
                  (map Full.Common (map ClickCheckbox [0; 1; 0; 2; 2; 5]%nat))
                  (Full.mount (open_on 1 casa_blu))))) = [2; 1; 3]%Z
  /\ NoDup [2; 1; 3]%Z.
Proof.
  assert (Hnd : NoDup (map Employee.id (Apartment.employees casa_blu))).
  { simpl. repeat constructor; simpl; intuition discriminate. }
  split; [exact Hnd |]. split; [reflexivity |].
  exact (proj1 (proj1
    (@employee_ids_reflect_checkboxes sample_engine {| addr := 1; val := casa_blu |}
       [anna; luca; sara] [0; 1; 0; 2; 2; 5]%nat Hnd))).
Defined.

Lemma blank_new_employee_sends_nothing_witness :
  Full.step sample_engine (Full.ClickAddEmployee Resolved Resolved) (typing "Gina" "") =
  (typing "Gina" "", [toast "Errore" "Nome e cognome sono obbligatori." true]).
Proof.
  apply (@blank_new_employee_sends_nothing sample_engine (typing "Gina" "") Resolved Resolved
           eq_refl eq_refl).
  right. reflexivity.
Defined.

Lemma failed_create_keeps_sub_form_witness :
  fst (Full.step sample_engine (Full.ClickAddEmployee (Rejected "503") Resolved)
         (typing "Gina" "Neri")) =
  typing "Gina" "Neri".
Proof.
  assert (Hfirst : NewEmployee.first_name (Full.newEmployee (typing "Gina" "Neri")) <> "")
    by discriminate.
  assert (Hlast : NewEmployee.last_name (Full.newEmployee (typing "Gina" "Neri")) <> "")
    by discriminate.
  exact (proj1 (proj1
    (@failed_create_keeps_sub_form sample_engine (typing "Gina" "Neri") (Rejected "503")
       Resolved eq_refl eq_refl Hfirst Hlast)
    "503" eq_refl)).
Defined.

Lemma reset_shows_target_witness :
  Full.form
    (fst (Full.step sample_engine (Full.Common (Render (open_on 2 villa_rosa))) edited_full)) =
    values_of villa_rosa
  /\ Basic.form (fst (Basic.step (Render (open_on 2 villa_rosa)) edited_basic)) =
     values_of villa_rosa
  /\ Full.form edited_full <> values_of casa_blu.
Proof.
  pose proof (@reset_shows_target sample_engine edited_full edited_basic (open_on 2 villa_rosa)
                eq_refl (or_intror eq_refl) (or_intror eq_refl)) as H.
  split; [exact (proj1 H) |].
  split; [exact (proj1 (proj2 H)) |].
  discriminate.
Defined.

Lemma employee_ids_never_repeat_witness :
  NoDup
    (ApartmentFormData.employee_ids
       (Full.form
          (fst (Full.run sample_engine
                  [Full.Common (ClickCheckbox 1);
                   Full.ChangeEmployeeSearch "ro";
                   Full.Common (ClickCheckbox 0);
                   Full.Common (Render (open_on 2 villa_rosa));
                   Full.Common (ClickCheckbox 2)]
                  (Full.mount (open_on 1 casa_blu)))))).
Proof.
  assert (Hc : distinct_ids (Some {| addr := 1; val := casa_blu |})).
  { simpl. repeat constructor; simpl; intuition discriminate. }
  assert (Hv : distinct_ids (Some {| addr := 2; val := villa_rosa |})).
  { simpl. repeat constructor; simpl; intuition discriminate. }
  refine (proj1
    (@employee_ids_never_repeat sample_engine (open_on 1 casa_blu)
       [Full.Common (ClickCheckbox 1);
        Full.ChangeEmployeeSearch "ro";
        Full.Common (ClickCheckbox 0);
        Full.Common (Render (open_on 2 villa_rosa));
        Full.Common (ClickCheckbox 2)]
       [] Hc _ (Forall_nil _))).
  repeat (apply Forall_cons; [first [exact I | exact Hv] |]). apply Forall_nil.
Defined.

Lemma sub_form_never_touches_form_witness :
  callbacks
    (snd (Full.run sample_engine
            [Full.ClickAddToggle; Full.ChangeNewFirstName "Gina";
             Full.Common (ChangeName "Casa Verde");
             Full.ClickAddEmployee (Rejected "503") Resolved;
             Full.Common Submit]
            (Full.mount (open_on 1 casa_blu))))
  = snd (Basic.run [ChangeName "Casa Verde"; Submit] (Basic.mount (open_on 1 casa_blu))).
Proof.
  refine (proj1 (@sub_form_never_touches_form sample_engine (open_on 1 casa_blu)
    [Full.ClickAddToggle; Full.ChangeNewFirstName "Gina";
     Full.Common (ChangeName "Casa Verde");
     Full.ClickAddEmployee (Rejected "503") Resolved;
     Full.Common Submit] _)).
  repeat constructor.
Defined.

Lemma typed_names_persist_witness :
  Full.newEmployee
    (fst (Full.run sample_engine
            [Full.ClickAddToggle;
             Full.Common (Render {| isOpen := false; apartment := None; employees := [] |});
             Full.Common (Render (open_on 2 villa_rosa));
             Full.ClickAddToggle]
            (typing "Gina" "Neri")))
  = {| NewEmployee.first_name := "Gina"; NewEmployee.last_name := "Neri" |}.
Proof.
  refine (@typed_names_persist sample_engine
    [Full.ClickAddToggle;
     Full.Common (Render {| isOpen := false; apartment := None; employees := [] |});
     Full.Common (Render (open_on 2 villa_rosa));
     Full.ClickAddToggle]
    (typing "Gina" "Neri") _).
  repeat constructor.
Defined.

Lemma refresh_after_create_keeps_form_witness :
  Full.form
    (fst (Full.run sample_engine
            [Full.ClickAddEmployee Resolved Resolved;
             Full.Common
               (Render {| isOpen := true;
                          apartment := apartment (Full.props (typing "Gina" "Neri"));
                          employees := [anna; luca; sara; Employee.mk 4 "Gina" "Neri"] |})]
            (typing "Gina" "Neri")))
  = Full.form (typing "Gina" "Neri").
Proof.
  assert (Hf : NewEmployee.first_name (Full.newEmployee (typing "Gina" "Neri")) <> "")
    by discriminate.
  assert (Hl : NewEmployee.last_name (Full.newEmployee (typing "Gina" "Neri")) <> "")
    by discriminate.
  exact (proj1 (@refresh_after_create_keeps_form sample_engine (typing "Gina" "Neri")
                  [anna; luca; sara; Employee.mk 4 "Gina" "Neri"] eq_refl eq_refl Hf Hl)).
Defined.

Lemma open_and_save_round_trip_witness :
  snd (Full.run sample_engine [Full.Common Submit] (Full.mount (open_on 2 villa_rosa)))
  = [onSubmit (values_of villa_rosa)].
Proof.
  assert (Hn : Apartment.name villa_rosa <> "") by discriminate.
  assert (Hd : Apartment.cleaning_date villa_rosa <> "") by discriminate.
  exact (proj1 (@open_and_save_round_trip sample_engine {| addr := 2; val := villa_rosa |}
                  [anna; luca; sara] Hn Hd)).
Defined.

Lemma longer_search_narrows_witness :
  incl (Full.filteredEmployees sample_engine [anna; luca; sara] ("" ++ "an" ++ "ch"))
       (Full.filteredEmployees sample_engine [anna; luca; sara] "an").
Proof.
  refine (proj1 (@longer_search_narrows sample_engine [anna; luca; sara] "" "an" "ch"
                   _ _ eq_refl)).
  - intros s _. reflexivity.
  - repeat constructor.
Defined.

Lemma click_flips_only_that_box_witness :
  View.full_checklist sample_engine
    (fst (Full.step sample_engine (Full.Common (ClickCheckbox 1))
            (Full.mount (open_on 1 casa_blu))))
  = [{| View.label := "Anna Rossi"; View.checked := true |};
     {| View.label := "Luca Bianchi"; View.checked := true |};
     {| View.label := "Sara Verdi"; View.checked := true |}].
Proof.
  exact (proj1 (@click_flips_only_that_box sample_engine
                  (Full.mount (open_on 1 casa_blu)) (Basic.mount (open_on 1 casa_blu))
                  1 luca eq_refl eq_refl eq_refl eq_refl)).
Defined.

Lemma close_and_reopen_discards_edits_witness :
  Full.form
    (fst (Full.run sample_engine
            [Full.Common
               (Render {| isOpen := false;
                          apartment := apartment (open_on 1 casa_blu);
                          employees := employees (open_on 1 casa_blu) |});
             Full.Common (Render (open_on 1 casa_blu))]
            edited_full))
  = values_of casa_blu.
Proof.
  exact (proj1 (@close_and_reopen_discards_edits sample_engine edited_full edited_basic
                  (open_on 1 casa_blu) eq_refl)).
Defined.

(** The row of an employee whose name contains the search text letter for
    letter is hidden when lowering the name turns that letter into another
    one: a capital sigma at the end of a word is lowered to the final
    sigma, the same letter alone to the plain sigma. *)
Lemma search_misses_final_sigma :
  ~ (forall e,
       In e (Full.filteredEmployees final_sigma_engine [alexis] "Σ")
       <-> In e [alexis] /\ contains_ignoring_case final_sigma_engine (display_name e) "Σ").
Proof.
  intros H. destruct (H alexis) as [_ Hshown].
  assert (Hin : In alexis (Full.filteredEmployees final_sigma_engine [alexis] "Σ")).
  { apply Hshown. split; [now left |].
    exists "Α", "Σ", " Rossi". split; reflexivity. }
  vm_compute in Hin. exact Hin.
Qed.

(* ------------------------------------------------------------------ *)
(** * The model on sample data *)

Example clicks_on_casa_blu :
  ApartmentFormData.employee_ids
    (Basic.form
       (fst (Basic.run (map ClickCheckbox [0; 1; 0; 2; 2; 5]%nat)
               (Basic.mount (open_on 1 casa_blu))))) = [2; 1; 3]%Z.
Proof. reflexivity. Qed.

Example search_on_ascii_names :
  Full.filteredEmployees sample_engine [anna; luca; sara] "A R" = [anna]
  /\ Full.filteredEmployees sample_engine [anna; luca; sara] "VERD" = [sara]
  /\ Full.filteredEmployees sample_engine [anna; luca; sara] "rossi anna" = [].
Proof. repeat split. Qed.

Example submit_needs_a_name :
  snd (Full.run sample_engine
         [Full.Common (ChangeName ""); Full.Common Submit;
          Full.Common (ChangeName "Casa Blu"); Full.Common Submit]
         (Full.mount (open_on 1 casa_blu)))
  = [onSubmit (values_of casa_blu)].
Proof. reflexivity. Qed.

Example names_outlive_a_reset :
  Full.newEmployee
    (fst (Full.step sample_engine (Full.Common (Render (open_on 2 villa_rosa)))
            (typing "Gina" "Neri")))
  = {| NewEmployee.first_name := "Gina"; NewEmployee.last_name := "Neri" |}
  /\ Full.showAddEmployee
       (fst (Full.step sample_engine (Full.Common (Render (open_on 2 villa_rosa)))
               (typing "Gina" "Neri")))
     = false.
Proof. split; reflexivity. Qed.

Example fixture_cards :
  Statistics.Statistics (fun d => d) (fun key => Some key) (Some fixture) false false =
  Statistics.Loaded
    {| Statistics.totalOrdersCard := 42;
       Statistics.topEmployeeName := "Maria";
       Statistics.topEmployeeCount := 9;
       Statistics.topEmployeeNoun := "ordini";
       Statistics.busiestDayValue := "2024-05-20";
       Statistics.busiestDayCount := 7;
       Statistics.busiestDayNoun := "ordini";
       Statistics.monthlyBars :=
         [{| Statistics.month_name := "2024-05"; Statistics.total := 12 |}] |}.
Proof. reflexivity. Qed.

Example unreadable_month_throws :
  Statistics.Statistics (fun d => d) (fun key => None) (Some fixture) false false
  = Statistics.Thrown.
Proof. reflexivity. Qed.
